(** * Webrecorder front-end: development server, client bootstrap, build script

    A shallow embedding of the three source files of the repository

    - the hot-reload development server (Express + webpack middlewares),
    - [frontend/src/client.js], the browser entry point,
    - [frontend/run.sh], the shell entry point choosing the build,

    together with the properties that the specification states about them.
    JavaScript values, IEEE-754 doubles and the [Number] conversion are
    modelled in [Module JS]; doubles are the [spec_float]s of the standard
    library at precision 53 and maximal exponent 1024. *)

From Stdlib Require Import ZArith NArith Lia Bool List Ascii String.
From Stdlib Require Import Floats.SpecFloat.
From stdpp Require Import base strings gmap list.

Local Open Scope Z_scope.

(* ===================================================================== *)
(** * JavaScript values and numbers *)
(* ===================================================================== *)

Module JS.

(** ** Numbers: IEEE-754 binary64 *)

Definition number : Type := spec_float.

Definition prec : Z := 53.
Definition emax : Z := 1024.

Definition NaN : number := S754_nan.
Definition num_add (x y : number) : number := SFadd prec emax x y.

(** The double nearest to an integer (ties to even). *)
Definition of_Z (z : Z) : number := binary_normalize prec emax z 0 false.

(** The double nearest (ties to even) to [±d * 10^k], for [k] of either
    sign. *)
Definition of_decimal (neg : bool) (d : N) (k : Z) : number :=
  match d with
  | N0 => S754_zero neg
  | Npos p =>
      if 0 <=? k
      then binary_normalize prec emax (cond_Zopp neg (Zpos p * 10 ^ k)) 0 false
      else SFdiv prec emax (S754_finite neg p 0)
                           (S754_finite false (Z.to_pos (10 ^ (- k))) 0)
  end.

Definition is_nan (x : number) : bool :=
  match x with S754_nan => true | _ => false end.

Definition is_zero (x : number) : bool :=
  match x with S754_zero _ => true | _ => false end.

(** The integer a double denotes, when it denotes one. *)
Definition integer_value (x : number) : option Z :=
  match x with
  | S754_zero _ => Some 0
  | S754_finite s m e =>
      if 0 <=? e then Some (cond_Zopp s (Zpos m * 2 ^ e))
      else if Zpos m mod 2 ^ (- e) =? 0
           then Some (cond_Zopp s (Zpos m / 2 ^ (- e)))
           else None
  | _ => None
  end.

(** ** Values *)

Inductive value : Type :=
  | VUndefined
  | VNull
  | VBool (b : bool)
  | VNumber (n : number)
  | VString (s : string)
  | VObject (id : nat).

(** [ToBoolean]: the falsy values are [undefined], [null], [false], [NaN],
    [+0], [-0] and the empty string. *)
Definition ToBoolean (v : value) : bool :=
  match v with
  | VUndefined | VNull => false
  | VBool b => b
  | VNumber n => negb (is_nan n || is_zero n)
  | VString s => negb (String.eqb s "")
  | VObject _ => true
  end.

(** [a || b] returns [a] when it is truthy and [b] otherwise. *)
Definition js_or (a b : value) : value := if ToBoolean a then a else b.

(** ** [StringToNumber] *)

Definition code (c : ascii) : N := N_of_ascii c.

(** Value of [c] as a digit in the given radix. *)
Definition digit_of (radix : N) (c : ascii) : option N :=
  (let n := code c in
   let d := if (48 <=? n) && (n <=? 57) then Some (n - 48)
            else if (97 <=? n) && (n <=? 122) then Some (n - 87)
            else if (65 <=? n) && (n <=? 90) then Some (n - 55)
            else None in
   match d with
   | Some v => if v <? radix then Some v else None
   | None => None
   end)%N.

(** Reads the longest prefix of digits: the accumulated value, the number
    of digits read, and the rest of the string. *)
Fixpoint read_digits (radix : N) (s : string) (acc : N) (cnt : nat)
  : N * nat * string :=
  match s with
  | EmptyString => (acc, cnt, s)
  | String c r =>
      match digit_of radix c with
      | Some d => read_digits radix r (radix * acc + d)%N (S cnt)
      | None => (acc, cnt, s)
      end
  end.

(** Leading white space of a string read as UTF-8: TAB, LF, VT, FF, CR,
    SP, and the encodings of U+00A0, U+1680, U+2000..U+200A, U+2028,
    U+2029, U+202F, U+205F, U+3000 and U+FEFF. *)
Definition ws1 (a : N) : bool :=
  ((9 <=? a) && (a <=? 13) || (a =? 32))%N.

Definition ws2 (a b : N) : bool := ((a =? 194) && (b =? 160))%N.

Definition ws3 (a b c : N) : bool :=
  ((a =? 225) && (b =? 154) && (c =? 128)
   || (a =? 226) && (b =? 128)
      && ((128 <=? c) && (c <=? 138) || (c =? 168) || (c =? 169) || (c =? 175))
   || (a =? 226) && (b =? 129) && (c =? 159)
   || (a =? 227) && (b =? 128) && (c =? 128)
   || (a =? 239) && (b =? 187) && (c =? 191))%N.

Fixpoint trim_start (l : list N) : list N :=
  match l with
  | a :: r1 =>
      if ws1 a then trim_start r1
      else match r1 with
           | b :: r2 =>
               if ws2 a b then trim_start r2
               else match r2 with
                    | c :: r3 => if ws3 a b c then trim_start r3 else l
                    | [] => l
                    end
           | [] => l
           end
  | [] => l
  end.

(** The same on the reversed string, for trailing white space. *)
Fixpoint trim_start_rev (l : list N) : list N :=
  match l with
  | a :: r1 =>
      if ws1 a then trim_start_rev r1
      else match r1 with
           | b :: r2 =>
               if ws2 b a then trim_start_rev r2
               else match r2 with
                    | c :: r3 => if ws3 c b a then trim_start_rev r3 else l
                    | [] => l
                    end
           | [] => l
           end
  | [] => l
  end.

Definition codes (s : string) : list N := code <$> list_ascii_of_string s.
Definition of_codes (l : list N) : string :=
  string_of_list_ascii (ascii_of_N <$> l).

Definition trim (s : string) : string :=
  of_codes (rev (trim_start_rev (rev (trim_start (codes s))))).

(** [0x], [0o] and [0b] literals: unsigned, at least one digit, nothing
    after the digits. *)
Definition parse_non_decimal (s : string) : option N :=
  match s with
  | String z (String c r) =>
      let radix :=
        if negb (z =? "0")%char then None
        else if (c =? "x")%char || (c =? "X")%char then Some 16%N
        else if (c =? "o")%char || (c =? "O")%char then Some 8%N
        else if (c =? "b")%char || (c =? "B")%char then Some 2%N
        else None in
      match radix with
      | Some rx =>
          match read_digits rx r 0 0 with
          | (v, S _, EmptyString) => Some v
          | _ => None
          end
      | None => None
      end
  | _ => None
  end.

(** An optional sign in front of [s]. *)
Definition read_sign (s : string) : bool * string :=
  match s with
  | String c r =>
      if (c =? "+")%char then (false, r)
      else if (c =? "-")%char then (true, r)
      else (false, s)
  | EmptyString => (false, s)
  end.

(** [StrUnsignedDecimalLiteral] without [Infinity]: digits, an optional
    fraction, an optional exponent; at least one digit before the exponent.
    The result [(d, k)] stands for [d * 10^k]. *)
Definition parse_unsigned_decimal (s : string) : option (N * Z) :=
  let '(ip, ni, r1) := read_digits 10 s 0 0 in
  let '(d, nf, r2) :=
    match r1 with
    | String c r =>
        if (c =? ".")%char then read_digits 10 r ip 0 else (ip, 0%nat, r1)
    | EmptyString => (ip, 0%nat, r1)
    end in
  if (ni + nf =? 0)%nat then None
  else
    match r2 with
    | EmptyString => Some (d, - Z.of_nat nf)
    | String c r3 =>
        if (c =? "e")%char || (c =? "E")%char then
          let '(neg, r4) := read_sign r3 in
          match read_digits 10 r4 0 0 with
          | (x, S _, EmptyString) =>
              Some (d, cond_Zopp neg (Z.of_N x) - Z.of_nat nf)
          | _ => None
          end
        else None
    end.

Definition parse_numeric_literal (s : string) : number :=
  match parse_non_decimal s with
  | Some v => of_Z (Z.of_N v)
  | None =>
      let '(neg, u) := read_sign s in
      if String.eqb u "Infinity" then S754_infinity neg
      else match parse_unsigned_decimal u with
           | Some (d, k) => of_decimal neg d k
           | None => NaN
           end
  end.

Definition StringToNumber (s : string) : number :=
  match trim s with
  | EmptyString => S754_zero false
  | t => parse_numeric_literal t
  end.

(** [ToNumber]; an ordinary object converts through ["[object Object]"]. *)
Definition ToNumber (v : value) : number :=
  match v with
  | VUndefined => NaN
  | VNull => S754_zero false
  | VBool b => if b then of_Z 1 else S754_zero false
  | VNumber n => n
  | VString s => StringToNumber s
  | VObject _ => NaN
  end.

(** ** Decimal integer literals

    The strings made of an optional sign and at least one decimal digit,
    with the integer they denote. *)
Fixpoint digits_value (s : string) (acc : N) : option N :=
  match s with
  | EmptyString => Some acc
  | String c r =>
      if ((48 <=? code c) && (code c <=? 57))%N
      then digits_value r (10 * acc + (code c - 48))%N
      else None
  end.

Definition decimal_integer (s : string) : option Z :=
  let '(neg, u) := read_sign s in
  match u with
  | EmptyString => None
  | _ => match digits_value u 0 with
         | Some v => Some (cond_Zopp neg (Z.of_N v))
         | None => None
         end
  end.

(** Codes of decimal digits, and of the visible ASCII characters. *)
Definition digit_code (a : N) : Prop := (48 <= a <= 57)%N.
Definition plain (a : N) : Prop := (33 <= a < 128)%N.

(** ** Canonical doubles of small integers *)

(** [k * 2^n]. *)
Definition shl (k : positive) (n : nat) : positive := Nat.iter n xO k.

(** The double with sign [s] and magnitude [k], for [k] below [2^53]:
    the mantissa is [k] shifted up to 53 bits. *)
Definition canon (s : bool) (k : positive) : number :=
  S754_finite s (shl k (Z.to_nat (53 - Zpos (digits2_pos k))))
              (Zpos (digits2_pos k) - 53).

Definition canon_Z (z : Z) : number :=
  match z with
  | 0 => S754_zero false
  | Zpos k => canon false k
  | Zneg k => canon true k
  end.

(** Strings of ASCII white space only: TAB, LF, VT, FF, CR and SP. *)
Definition blank (s : string) : Prop :=
  Forall (fun a => ws1 a = true) (codes s).

(** [process.env]: every property is a string or missing. *)
Definition env_get (env : gmap string string) (k : string) : value :=
  match env !! k with
  | Some s => VString s
  | None => VUndefined
  end.

End JS.

(* ===================================================================== *)
(** * The development server *)
(* ===================================================================== *)

Module DevServer.
Import JS.

(** ** Configuration objects *)

Record watch_options := { aggregateTimeout : Z; poll : Z }.

Record stats_options := { colors : bool }.

(** The template string [`http://${host}:${port}`], kept as its two holes. *)
Record base_url := { url_host : value; url_port : value }.

(** The options object of [webpack-dev-middleware]; a key that the object
    literal does not have is [None]. *)
Record middleware_options := {
  contentBase : option base_url;
  quiet : option bool;
  noInfo : option bool;
  inline : option bool;
  publicPath : option string;
  headers : option (gmap string string);
  stats : option stats_options;
  watchOptions : option watch_options;
  serverSideRender : option bool
}.

Inductive middleware : Type :=
  | WebpackDevMiddleware (opts : middleware_options)
  | WebpackHotMiddleware.

(** What the script does to the outside, in program order.  [Uncaught]
    is an ['error'] event that nobody listens to: Node throws it, writes it
    to the error stream and ends the process. *)
Inductive effect : Type :=
  | Webpack
  | AppUse (m : middleware)
  | AppListen (p : value)
  | ConsoleError (err : value)
  | ConsoleInfo (fmt : string) (args : list value)
  | Uncaught (err : value).

(** How binding the listener ends: the server is bound, or binding fails
    with an [Error] object. *)
Inductive listen_result : Type :=
  | Bound
  | BindFailed (error : nat).

(** The two ways of [app.listen] to treat its callback.  Express 4 hands
    it to [http.Server.listen], which calls it on ['listening'] only, with
    no argument; Express 5 also calls it, once, with a bind error. *)
Inductive express : Type :=
  | Express4
  | Express5.

Section Program.

(** [process.env], and [webpackConfig.output.publicPath] of the bundler
    configuration module. *)
Variable env : gmap string string.
Variable webpack_publicPath : string.

Definition host : value :=
  js_or (env_get env "APP_HOST") (VString "127.0.0.1").

Definition port : value :=
  js_or (VNumber (num_add (ToNumber (env_get env "FRONTEND_PORT")) (of_Z 1)))
        (VNumber (of_Z 8096)).

Definition cors_headers : gmap string string :=
  {[ "Access-Control-Allow-Origin" := "*" ]}.

Definition serverOptions : middleware_options :=
  {| contentBase := Some {| url_host := host; url_port := port |};
     quiet := Some true;
     noInfo := Some true;
     inline := Some true;
     publicPath := Some webpack_publicPath;
     headers := Some cors_headers;
     stats := Some {| colors := true |};
     watchOptions := Some {| aggregateTimeout := 300; poll := 1000 |};
     serverSideRender := None |}.

(** The object literal given to [webpackDevMiddleware]. *)
Definition devMiddlewareOptions : middleware_options :=
  {| stats := Some {| colors := true |};
     headers := Some cors_headers;
     contentBase := Some {| url_host := host; url_port := port |};
     publicPath := Some webpack_publicPath;
     serverSideRender := Some true;
     quiet := None;
     noInfo := None;
     inline := None;
     watchOptions := None |}.

(** The callback given to [app.listen]. *)
Definition listen_callback (err : value) : list effect :=
  if ToBoolean err then [ConsoleError err]
  else [ConsoleInfo
          "==> 🚧  My HotReload Webpack development server listening on port %s"
          [port]].

(** The module body, up to and including the call of [app.listen]. *)
Definition main : list effect :=
  [ Webpack;
    AppUse (WebpackDevMiddleware devMiddlewareOptions);
    AppUse WebpackHotMiddleware;
    AppListen port ].

(** A whole start-up: the module body, then the callback with what the
    listener reports. *)
Definition startup (err : value) : list effect :=
  main ++ listen_callback err.

(** What follows the call of [app.listen]: on success the callback runs
    without an argument; a bind failure reaches the callback under
    Express 5, and under Express 4 goes uncaught. *)
Definition after_listen (v : express) (res : listen_result) : list effect :=
  match res with
  | Bound => listen_callback VUndefined
  | BindFailed e =>
      match v with
      | Express4 => [Uncaught (VObject e)]
      | Express5 => listen_callback (VObject e)
      end
  end.

(** A run of the server. *)
Definition run (v : express) (res : listen_result) : list effect :=
  main ++ after_listen v res.

End Program.

Definition listen_calls (t : list effect) : list value :=
  omap (fun e => match e with AppListen p => Some p | _ => None end) t.

Definition dev_middlewares (t : list effect) : list middleware_options :=
  omap (fun e => match e with
                 | AppUse (WebpackDevMiddleware o) => Some o
                 | _ => None
                 end) t.

Definition error_logs (t : list effect) : list value :=
  omap (fun e => match e with ConsoleError v => Some v | _ => None end) t.

Definition uncaught_errors (t : list effect) : list value :=
  omap (fun e => match e with Uncaught v => Some v | _ => None end) t.

Definition info_logs (t : list effect) : list (string * list value) :=
  omap (fun e => match e with
                 | ConsoleInfo fmt args => Some (fmt, args)
                 | _ => None
                 end) t.

(** ** Responses of the bundler middleware *)

Record response := { status : Z; response_headers : gmap string string }.

(** A middleware that answers the requests below its public path, with the
    headers of its [headers] option and a content type. *)
Definition static_serve (opts : middleware_options) (path : string)
  : option response :=
  match publicPath opts with
  | Some pp =>
      if String.prefix pp path
      then Some {| status := 200;
                   response_headers :=
                     default ∅ (headers opts)
                     ∪ {[ "Content-Type" := "application/javascript" ]} |}
      else None
  | None => None
  end.

End DevServer.

(* ===================================================================== *)
(** * The client bootstrap, [client.js] *)
(* ===================================================================== *)

Module Client.
Import JS.

(** A JSX element as the script writes it: the component, the [key]
    attribute when it is written out, the other attributes (for a spread,
    the entries of the object) and the children.  What React makes of the
    attributes, such as taking [key] and [ref] out of the props, is part
    of what [ReactDOM.hydrate] does with the element. *)
#[local] Unset Elimination Schemes.
Inductive element : Type :=
  | Element (type : string) (key : option string)
            (props : gmap string value) (children : list element).
#[local] Set Elimination Schemes.

(** What the script does to the page, in program order. *)
Inductive event : Type :=
  | EvNewApiClient (client : value)
  | EvAppendScript (script : value) (src : string) (async : bool)
  | EvSetWindow (k : string) (v : value)
  | EvCreateStore (client data store : value)
  | EvRavenInstall (cfg : value)
  | EvRequire (path : string)
  | EvHydrate (el : element) (container : value)
  | EvHotAccept (dep : string).

(** The module-level constants that [renderApp] and the hot-reload
    callback close over. *)
Record closure := { cl_store : value; cl_dest : value; cl_client : value }.

(** What the bundler and the [config] module fix before the script runs:
    the flags [__PLAYER__] and [__DESKTOP__], [config.ravenConfig], whether
    Raven takes that value for a DSN, the binding that
    [import baseRoute from './baseRoute'] has at load time, and whether
    [module.hot] is defined. *)
Record build := {
  PLAYER : value;
  DESKTOP : value;
  ravenConfig : value;
  ravenAccepts : bool;
  baseRoute : value;
  module_hot : bool
}.

(** How an uncaught error is dealt with. *)
Inductive handling : Type :=
  | ReportedTo (cfg : value)
  | BrowserDefault.

Section React.

(** The rendered output of a container, and what [ReactDOM.hydrate] makes
    of an element given the output the container already has. *)
Variable dom_tree : Type.
Variable reconcile : element -> option dom_tree -> dom_tree.

Record world := {
  window : gmap string value;          (* properties of [window] *)
  document : gmap string nat;          (* elements by id *)
  modules : gmap string value;         (* what [require] resolves to *)
  next_id : nat;                       (* next fresh object *)
  containers : gmap nat dom_tree;      (* rendered output per container *)
  error_handlers : list value;         (* installed global handlers *)
  hot_accepted : list (string * closure);
  trace : list event
}.

(** Computations on the page that may throw. *)
Definition M (A : Type) : Type := world -> option A * world.

Definition ret {A} (a : A) : M A := fun w => (Some a, w).
Definition bind {A B} (m : M A) (k : A -> M B) : M B :=
  fun w => match m w with
           | (Some a, w') => k a w'
           | (None, w') => (None, w')
           end.

Notation "'do' x <- m ; k" := (bind m (fun x => k))
  (at level 10, x name, m at level 100, k at level 200).
Notation "m ;; k" := (bind m (fun _ => k))
  (at level 100, k at level 200, right associativity).

(** Updates of one field of the page. *)
Definition add_event (e : event) (w : world) : world :=
  {| window := window w; document := document w; modules := modules w;
     next_id := next_id w; containers := containers w;
     error_handlers := error_handlers w; hot_accepted := hot_accepted w;
     trace := trace w ++ [e] |}.

Definition next_object (w : world) : world :=
  {| window := window w; document := document w; modules := modules w;
     next_id := S (next_id w); containers := containers w;
     error_handlers := error_handlers w; hot_accepted := hot_accepted w;
     trace := trace w |}.

Definition put_window (k : string) (v : value) (w : world) : world :=
  {| window := <[k := v]> (window w); document := document w;
     modules := modules w; next_id := next_id w;
     containers := containers w; error_handlers := error_handlers w;
     hot_accepted := hot_accepted w; trace := trace w |}.

Definition put_module (path : string) (v : value) (w : world) : world :=
  {| window := window w; document := document w;
     modules := <[path := v]> (modules w); next_id := next_id w;
     containers := containers w; error_handlers := error_handlers w;
     hot_accepted := hot_accepted w; trace := trace w |}.

Definition put_container (c : nat) (t : dom_tree) (w : world) : world :=
  {| window := window w; document := document w; modules := modules w;
     next_id := next_id w; containers := <[c := t]> (containers w);
     error_handlers := error_handlers w; hot_accepted := hot_accepted w;
     trace := trace w |}.

Definition add_handler (cfg : value) (w : world) : world :=
  {| window := window w; document := document w; modules := modules w;
     next_id := next_id w; containers := containers w;
     error_handlers := error_handlers w ++ [cfg];
     hot_accepted := hot_accepted w; trace := trace w |}.

Definition add_accepted (dep : string) (c : closure) (w : world) : world :=
  {| window := window w; document := document w; modules := modules w;
     next_id := next_id w; containers := containers w;
     error_handlers := error_handlers w;
     hot_accepted := hot_accepted w ++ [(dep, c)]; trace := trace w |}.

Definition emit (e : event) : M unit := fun w => (Some tt, add_event e w).

Definition fresh : M value := fun w =>
  (Some (VObject (next_id w)), next_object w).

Definition get_window (k : string) : M value := fun w =>
  (Some (default VUndefined (window w !! k)), w).

Definition set_window (k : string) (v : value) : M unit := fun w =>
  (Some tt, add_event (EvSetWindow k v) (put_window k v w)).

(** [document.getElementById]: the element, or [null]. *)
Definition getElementById (id : string) : M value := fun w =>
  (Some (from_option VObject VNull (document w !! id)), w).

(** [require]: the current exports of a module; an unknown module throws. *)
Definition require (path : string) : M value := fun w =>
  (modules w !! path, add_event (EvRequire path) w).

(** [new ApiClient()]. *)
Definition new_ApiClient : M value :=
  do c <- fresh; emit (EvNewApiClient c);; ret c.

(** Modelled from the spec: [createStore] of [./store/create], which the
    sources at hand do not include; each call constructs a store of its
    own, optionally seeded from the initial data. *)
Definition createStore (client data : value) : M value :=
  do s <- fresh; emit (EvCreateStore client data s);; ret s.

(** [Raven.config(cfg).install()]: [config] throws on a value that Raven
    does not take for a DSN; otherwise [install] registers the global
    handler.  The page of the model holds the properties of [window] that
    the script itself assigns; the entry points that [install] wraps
    ([window.onerror], the timers) are not among them. *)
Definition Raven_install (accepted : bool) (cfg : value) : M unit := fun w =>
  if accepted
  then (Some tt, add_event (EvRavenInstall cfg) (add_handler cfg w))
  else (None, w).

(** [ReactDOM.hydrate(el, container)]; a container that is not an element
    makes React throw. *)
Definition ReactDOM_hydrate (el : element) (container : value) : M unit :=
  fun w =>
    match container with
    | VObject c =>
        (Some tt,
         put_container c (reconcile el (containers w !! c))
           (add_event (EvHydrate el container) w))
    | _ => (None, add_event (EvHydrate el container) w)
    end.

(** [module.hot.accept(dep, callback)]; the callback is kept with the
    constants it closes over. *)
Definition hot_accept (dep : string) (c : closure) : M unit := fun w =>
  (Some tt, add_event (EvHotAccept dep) (add_accepted dep c w)).

(** The element that [renderApp] builds; in [{ store, ...renderProps }]
    the properties of [renderProps] come last and win. *)
Definition app_element (store : value) (renderProps : gmap string value)
  : element :=
  Element "AppContainer" None {[ "warnings" := VBool false ]}
    [ Element "Provider" (Some "provider") {[ "store" := store ]}
        [ Element "Root" None (renderProps ∪ {[ "store" := store ]}) [] ] ].

Definition renderApp (c : closure) (renderProps : gmap string value)
  : M unit :=
  ReactDOM_hydrate (app_element (cl_store c) renderProps) (cl_dest c).

(** The callback given to [module.hot.accept]. *)
Definition hot_callback (c : closure) : M unit :=
  do nextRoutes <- require "./baseRoute";
  set_window "__isReactDndBackendSetUp" (VBool false);;
  renderApp c {[ "routes" := nextRoutes; "client" := cl_client c ]}.

(** The module body, once the imports have been evaluated. *)
Definition client_js (b : build) : M closure :=
  do client <- new_ApiClient;
  do dest <- getElementById "app";
  do script <- fresh;
  emit (EvAppendScript script
          "http://127.0.0.1:8096/static/main-ce6d544a4ec204f36b27.js" true);;
  set_window "wrAppContainer" dest;;
  do data <- get_window "__data";
  do store <- createStore client data;
  let c := {| cl_store := store; cl_dest := dest; cl_client := client |} in
  (if ToBoolean (ravenConfig b)
   then Raven_install (ravenAccepts b) (ravenConfig b)
   else ret tt);;
  do routes <- (if ToBoolean (PLAYER b) then require "./playerRoutes"
                else ret (baseRoute b));
  renderApp c {[ "routes" := routes; "client" := client ]};;
  (if module_hot b && negb (ToBoolean (DESKTOP b))
   then hot_accept "./baseRoute" c
   else ret tt);;
  ret c.

(** The hot-update runtime: the module is replaced, then every callback
    accepted for it runs, in the order of acceptance. *)
Fixpoint run_callbacks (path : string) (l : list (string * closure))
  : M unit :=
  match l with
  | [] => ret tt
  | (dep, c) :: r =>
      (if String.eqb dep path then hot_callback c else ret tt);;
      run_callbacks path r
  end.

Definition hot_update (path : string) (exports : value) : M unit :=
  fun w => run_callbacks path (hot_accepted w) (put_module path exports w).

(** The page after the script has run and any number of updates of the
    route-definition module have been delivered. *)
Inductive reachable (b : build) (w0 : world) : closure -> world -> Prop :=
  | reach_load c w :
      client_js b w0 = (Some c, w) -> reachable b w0 c w
  | reach_update c w exports w' :
      reachable b w0 c w ->
      hot_update "./baseRoute" exports w = (Some tt, w') ->
      reachable b w0 c w'.

(** An uncaught error goes to every installed handler, then to the
    browser. *)
Definition uncaught_error (w : world) : list handling :=
  (ReportedTo <$> error_handlers w) ++ [BrowserDefault].

(** A page on which no script has run yet; objects below [n] exist. *)
Definition page (win : gmap string value) (doc : gmap string nat)
    (mods : gmap string value) (n : nat) : world :=
  {| window := win; document := doc; modules := mods; next_id := n;
     containers := ∅; error_handlers := []; hot_accepted := [];
     trace := [] |}.

End React.

Arguments window {dom_tree} w.
Arguments document {dom_tree} w.
Arguments modules {dom_tree} w.
Arguments next_id {dom_tree} w.
Arguments containers {dom_tree} w.
Arguments error_handlers {dom_tree} w.
Arguments hot_accepted {dom_tree} w.
Arguments trace {dom_tree} w.
Arguments add_event {dom_tree} e w.
Arguments next_object {dom_tree} w.
Arguments put_window {dom_tree} k v w.
Arguments put_module {dom_tree} path v w.
Arguments put_container {dom_tree} c t w.
Arguments add_handler {dom_tree} cfg w.
Arguments add_accepted {dom_tree} dep c w.
Arguments ret {dom_tree A} a w.
Arguments bind {dom_tree A B} m k w.
Arguments emit {dom_tree} e w.
Arguments fresh {dom_tree} w.
Arguments get_window {dom_tree} k w.
Arguments set_window {dom_tree} k v w.
Arguments getElementById {dom_tree} id w.
Arguments require {dom_tree} path w.
Arguments new_ApiClient {dom_tree} w.
Arguments createStore {dom_tree} client data w.
Arguments Raven_install {dom_tree} accepted cfg w.
Arguments ReactDOM_hydrate {dom_tree} reconcile el container w.
Arguments hot_accept {dom_tree} dep c w.
Arguments renderApp {dom_tree} reconcile c renderProps w.
Arguments hot_callback {dom_tree} reconcile c w.
Arguments client_js {dom_tree} reconcile b w.
Arguments run_callbacks {dom_tree} reconcile path l w.
Arguments hot_update {dom_tree} reconcile path exports w.
Arguments reachable {dom_tree} reconcile b w0 c w.
Arguments uncaught_error {dom_tree} w.
Arguments page {dom_tree} win doc mods n.

(** ** Reading a trace *)

Definition hydrations (t : list event) : list (element * value) :=
  omap (fun e => match e with
                 | EvHydrate el c => Some (el, c)
                 | _ => None
                 end) t.

Definition stores_created (t : list event) : list value :=
  omap (fun e => match e with
                 | EvCreateStore _ _ s => Some s
                 | _ => None
                 end) t.

Definition raven_installs (t : list event) : list value :=
  omap (fun e => match e with EvRavenInstall cfg => Some cfg | _ => None end) t.

Definition hot_accepts (t : list event) : list string :=
  omap (fun e => match e with EvHotAccept dep => Some dep | _ => None end) t.

Definition store_calls (t : list event) : list (value * value * value) :=
  omap (fun e => match e with
                 | EvCreateStore client data s => Some (client, data, s)
                 | _ => None
                 end) t.

Definition requires (t : list event) : list string :=
  omap (fun e => match e with EvRequire path => Some path | _ => None end) t.

Definition window_writes (t : list event) : list string :=
  omap (fun e => match e with EvSetWindow k _ => Some k | _ => None end) t.

Definition scripts_appended (t : list event) : list (value * string * bool) :=
  omap (fun e => match e with
                 | EvAppendScript o src async => Some (o, src, async)
                 | _ => None
                 end) t.

(** The bundle that the script makes the page load. *)
Definition bundle_url : string :=
  "http://127.0.0.1:8096/static/main-ce6d544a4ec204f36b27.js".



(** The store that a rendered element hands to [Provider]. *)
Definition provider_store (el : element) : option value :=
  match el with
  | Element _ _ _ [Element _ _ props _] => props !! "store"
  | _ => None
  end.

(** The attributes given to [Root] in a rendered element. *)
Definition root_props (el : element) : option (gmap string value) :=
  match el with
  | Element _ _ _ [Element _ _ _ [Element _ _ props _]] => Some props
  | _ => None
  end.

(** The routes of the first render, when they resolve. *)
Definition initial_routes (b : build) (mods : gmap string value)
  : option value :=
  if ToBoolean (PLAYER b) then mods !! "./playerRoutes"
  else Some (baseRoute b).

(** The element of a hot re-render. *)
Definition rerendered (c : closure) (exports : value) : element :=
  app_element (cl_store c) {[ "routes" := exports; "client" := cl_client c ]}.

(** Whether the module body gets past the installation of Raven: there
    is nothing to install, or Raven takes the configured value. *)
Definition raven_passes (b : build) : bool :=
  negb (ToBoolean (ravenConfig b)) || ravenAccepts b.

(** Whether the script subscribes to updates of the route definitions. *)
Definition subscribes (b : build) : bool :=
  module_hot b && negb (ToBoolean (DESKTOP b)).

(** The state [Mounted] of the bootstrap: what holds of the page once the
    script has run, with the constants [c] it has fixed. *)
Record mounted {dom_tree} (b : build) (c : closure) (w : world dom_tree)
  : Prop := {
  mounted_dest : exists d, cl_dest c = VObject d;
  mounted_accepted :
    hot_accepted w = if subscribes b then [("./baseRoute", c)] else [];
  mounted_handlers :
    error_handlers w
    = if ToBoolean (ravenConfig b) then [ravenConfig b] else [];
  mounted_installs :
    raven_installs (trace w)
    = if ToBoolean (ravenConfig b) then [ravenConfig b] else [];
  mounted_accepts :
    hot_accepts (trace w) = if subscribes b then ["./baseRoute"] else [];
  mounted_store : stores_created (trace w) = [cl_store c];
  mounted_renders :
    Forall (fun h => provider_store h.1 = Some (cl_store c) /\ h.2 = cl_dest c)
           (hydrations (trace w))
}.

(** ** A concrete page

    The objects 0 and 1 are the route table and the element [#app]; React
    is taken to show the element it was last given. *)
Module Example.

Definition show (el : element) (_ : option element) : element := el.

Definition dev_build : build :=
  {| PLAYER := VBool false; DESKTOP := VBool false;
     ravenConfig := VUndefined; ravenAccepts := false;
     baseRoute := VObject 0; module_hot := true |}.

Definition desktop_build : build :=
  {| PLAYER := VBool false; DESKTOP := VBool true;
     ravenConfig := VString "https://key@sentry.example/1";
     ravenAccepts := true;
     baseRoute := VObject 0; module_hot := true |}.

Definition doc : gmap string nat := {[ "app" := 1%nat ]}.
Definition mods : gmap string value := {[ "./baseRoute" := VObject 0 ]}.

Definition start : world element := page ∅ doc mods 2.

Definition consts : closure :=
  {| cl_store := VObject 4; cl_dest := VObject 1; cl_client := VObject 2 |}.

Definition loaded : world element := (client_js show dev_build start).2.
Definition loaded_desktop : world element :=
  (client_js show desktop_build start).2.

(** A player build, its routes, and a page without the element [#app]. *)
Definition player_build : build :=
  {| PLAYER := VBool true; DESKTOP := VBool false;
     ravenConfig := VUndefined; ravenAccepts := false;
     baseRoute := VObject 0; module_hot := true |}.

Definition player_mods : gmap string value :=
  {[ "./baseRoute" := VObject 0; "./playerRoutes" := VObject 2 ]}.

Definition player_start : world element := page ∅ doc player_mods 3.
Definition loaded_player : world element :=
  (client_js show player_build player_start).2.

(** The example page after one update of the route definitions. *)
Definition updated : world element :=
  (hot_update show "./baseRoute" (VObject 7) loaded).2.

(** A build whose [config.ravenConfig] is set to a string that Raven
    rejects, as it has no [//]. *)
Definition rejected_build : build :=
  {| PLAYER := VBool false; DESKTOP := VBool false;
     ravenConfig := VString "webrecorder"; ravenAccepts := false;
     baseRoute := VObject 0; module_hot := true |}.

Definition rejected : world element :=
  (client_js show rejected_build start).2.

Definition bare_start : world element := page ∅ ∅ mods 2.
Definition failed : world element := (client_js show dev_build bare_start).2.

End Example.

End Client.

(* ===================================================================== *)
(** * The shell entry point, [run.sh] *)
(* ===================================================================== *)

Module RunSh.

Inductive action : Type :=
  | Echo (line : string)
  | NpmRun (script : string).

(** ["$VAR"]: the value, or the empty string when the variable is unset. *)
Definition expand (env : gmap string string) (var : string) : string :=
  default EmptyString (env !! var).

(** [[ a = b ]]. *)
Definition test_eq (a b : string) : bool := String.eqb a b.

Definition run_sh (env : gmap string string) : list action :=
  if test_eq (expand env "NODE_ENV") "development"
  then [Echo "running production build"; NpmRun "docker-prod"]
  else [Echo "running development build"; NpmRun "docker-dev"].

End RunSh.

(* ===================================================================== *)
(** * Properties of numbers and of [Number] *)
(* ===================================================================== *)

Module JSFacts.
Import JS.

(** ** Shifts *)

Lemma pos_iter_shl k p : Pos.iter xO k p = shl k (Pos.to_nat p).
Proof. unfold shl. apply Pos2Nat.inj_iter. Qed.

Lemma iter_pos_nat {A} (f : A -> A) p x :
  SpecFloat.iter_pos f p x = Nat.iter (Pos.to_nat p) f x.
Proof.
  revert x. induction p as [p IH|p IH|]; intros x; cbn [SpecFloat.iter_pos].
  - rewrite !IH, Pos2Nat.inj_xI, <- Nat.iter_add, <- Nat.iter_succ_r.
    f_equal. lia.
  - rewrite !IH, Pos2Nat.inj_xO, <- Nat.iter_add. f_equal. lia.
  - reflexivity.
Qed.

Lemma shl_S k n : shl k (S n) = xO (shl k n).
Proof. reflexivity. Qed.

Lemma shl_add k n m : shl (shl k n) m = shl k (m + n).
Proof. unfold shl. symmetry. apply Nat.iter_add. Qed.

Lemma Zpos_shl k n : Zpos (shl k n) = Zpos k * 2 ^ Z.of_nat n.
Proof.
  induction n as [|n IH]; [simpl; lia|].
  rewrite shl_S, Pos2Z.inj_xO, IH, Nat2Z.inj_succ, Z.pow_succ_r by lia. lia.
Qed.

Lemma digits_shl k n :
  Zpos (digits2_pos (shl k n)) = Zpos (digits2_pos k) + Z.of_nat n.
Proof.
  induction n as [|n IH]; [simpl; lia|].
  rewrite shl_S. simpl digits2_pos. rewrite Pos2Z.inj_succ, IH. lia.
Qed.

Lemma digits_bounds k :
  2 ^ (Zpos (digits2_pos k) - 1) <= Zpos k < 2 ^ Zpos (digits2_pos k).
Proof.
  induction k as [k IH|k IH|]; simpl digits2_pos; [| |simpl; lia];
    rewrite Pos2Z.inj_succ;
    replace (Z.succ (Zpos (digits2_pos k)) - 1)
      with (Z.succ (Zpos (digits2_pos k) - 1)) by lia;
    rewrite !Z.pow_succ_r by lia; lia.
Qed.

Lemma digits_le_prec k : Zpos k < 2 ^ 53 -> Zpos (digits2_pos k) <= 53.
Proof.
  intros Hk. pose proof (digits_bounds k) as [Hlo _].
  destruct (Z.le_gt_cases (Zpos (digits2_pos k)) 53) as [|Hgt]; [done|].
  assert (2 ^ 53 <= 2 ^ (Zpos (digits2_pos k) - 1))
    by (apply Z.pow_le_mono_r; lia).
  lia.
Qed.

(** Shifting right what was shifted left loses nothing. *)
Lemma shr_shl k n p :
  (p <= n)%nat ->
  Nat.iter p shr_1
    {| shr_m := Zpos (shl k n); shr_r := false; shr_s := false |}
  = {| shr_m := Zpos (shl k (n - p)); shr_r := false; shr_s := false |}.
Proof.
  induction p as [|p IH]; intros Hp.
  - simpl. by rewrite Nat.sub_0_r.
  - simpl. rewrite IH by lia.
    replace (n - p)%nat with (S (n - S p)) by lia. reflexivity.
Qed.

Lemma shl_align_shl k (a b : nat) :
  (a <= b)%nat ->
  shl_align (shl k a) (- Z.of_nat a) (- Z.of_nat b) = (shl k b, - Z.of_nat b).
Proof.
  intros Hab. unfold shl_align.
  destruct (- Z.of_nat b - - Z.of_nat a) as [|q|q] eqn:Hq.
  - replace b with a by lia. reflexivity.
  - lia.
  - rewrite pos_iter_shl, shl_add. do 2 f_equal. lia.
Qed.

(** ** Rounding is exact on integers below [2^53] *)

(** A mantissa of exactly 53 bits within the exponent range is kept. *)
Lemma round_aux_canonical s m e :
  Zpos (digits2_pos m) = 53 -> -1074 <= e <= 971 ->
  binary_round_aux prec emax s (Zpos m) e loc_Exact = S754_finite s m e.
Proof.
  intros Hd He.
  unfold binary_round_aux, shr_fexp, fexp, emin, Zdigits2, prec, emax.
  rewrite Hd.
  replace (Z.max (53 + e - 53) (3 - 1024 - 53) - e) with 0 by lia.
  simpl. rewrite Hd.
  replace (Z.max (53 + e - 53) (3 - 1024 - 53) - e) with 0 by lia.
  simpl. destruct (Z.leb_spec e (1024 - 53)); [done|lia].
Qed.

Lemma round_exact s k (j : nat) :
  Zpos (digits2_pos k) <= 53 ->
  binary_round prec emax s (shl k j) (- Z.of_nat j) = canon s k.
Proof.
  intros Hd. unfold canon. set (d := Zpos (digits2_pos k)) in *.
  assert (1 <= d) by (unfold d; lia).
  unfold binary_round, shl_align.
  rewrite digits_shl. fold d.
  replace (fexp prec emax (d + Z.of_nat j + - Z.of_nat j)) with (d - 53)
    by (unfold fexp, emin, prec, emax; lia).
  destruct (d - 53 - - Z.of_nat j) as [|q|q] eqn:Hq.
  - rewrite round_aux_canonical.
    + f_equal; [f_equal|]; lia.
    + rewrite digits_shl. fold d. lia.
    + lia.
  - unfold binary_round_aux, shr_fexp. cbn [Zdigits2].
    rewrite digits_shl. fold d.
    replace (fexp prec emax (d + Z.of_nat j + - Z.of_nat j) - - Z.of_nat j)
      with (Zpos q) by (unfold fexp, emin, prec, emax; lia).
    cbn [shr shr_record_of_loc]. rewrite iter_pos_nat, shr_shl by lia.
    cbn [shr_m loc_of_shr_record round_nearest_even Zdigits2].
    rewrite digits_shl. fold d.
    replace (fexp prec emax
               (d + Z.of_nat (j - Pos.to_nat q) + (- Z.of_nat j + Zpos q))
             - (- Z.of_nat j + Zpos q)) with 0
      by (unfold fexp, emin, prec, emax; lia).
    cbn [shr shr_record_of_loc shr_m].
    destruct (Z.leb_spec (- Z.of_nat j + Zpos q) (emax - prec));
      [|unfold emax, prec in *; lia].
    f_equal; [f_equal|]; lia.
  - rewrite pos_iter_shl, shl_add, round_aux_canonical.
    + f_equal. f_equal. lia.
    + rewrite digits_shl. fold d. lia.
    + lia.
Qed.

Lemma binary_normalize_shl z (j : nat) :
  Z.abs z < 2 ^ 53 ->
  binary_normalize prec emax (z * 2 ^ Z.of_nat j) (- Z.of_nat j) false
  = canon_Z z.
Proof.
  intros Hz. destruct z as [|k|k]; cbn [canon_Z].
  - reflexivity.
  - rewrite <- Zpos_shl. cbn [binary_normalize].
    apply round_exact, digits_le_prec. lia.
  - replace (Z.neg k * 2 ^ Z.of_nat j) with (Z.neg (shl k j))
      by (rewrite <- Pos2Z.opp_pos, Zpos_shl; lia).
    cbn [binary_normalize]. apply round_exact, digits_le_prec. lia.
Qed.

Lemma of_Z_canon z : Z.abs z < 2 ^ 53 -> of_Z z = canon_Z z.
Proof.
  intros Hz. rewrite <- (binary_normalize_shl z 0 Hz).
  unfold of_Z. f_equal. simpl. lia.
Qed.

Lemma integer_value_canon s k :
  Zpos k < 2 ^ 53 -> integer_value (canon s k) = Some (cond_Zopp s (Zpos k)).
Proof.
  intros Hk. pose proof (digits_le_prec k Hk) as Hd.
  unfold canon, integer_value. set (d := Zpos (digits2_pos k)) in *.
  assert (1 <= d) by (unfold d; lia).
  destruct (Z.leb_spec 0 (d - 53)).
  - replace (d - 53) with 0 by lia. replace (53 - d) with 0 by lia.
    simpl. do 2 f_equal. lia.
  - rewrite Zpos_shl, Z2Nat.id by lia.
    replace (- (d - 53)) with (53 - d) by lia.
    assert (0 < 2 ^ (53 - d)) by (apply Z.pow_pos_nonneg; lia).
    rewrite Z.mod_mul, Z.div_mul by lia. reflexivity.
Qed.

(** The double of an integer below [2^53] denotes that integer. *)
Lemma integer_value_of_Z z :
  Z.abs z < 2 ^ 53 -> integer_value (of_Z z) = Some z.
Proof.
  intros Hz. rewrite of_Z_canon by done. destruct z as [|k|k]; cbn [canon_Z].
  - reflexivity.
  - rewrite integer_value_canon by lia. reflexivity.
  - rewrite integer_value_canon by lia. reflexivity.
Qed.

Lemma of_Z_falsy z :
  Z.abs z < 2 ^ 53 -> is_nan (of_Z z) || is_zero (of_Z z) = (z =? 0).
Proof. intros Hz. rewrite of_Z_canon by done. by destruct z. Qed.

(** ** Adding one *)

Lemma num_add_canon_one s k :
  Zpos k < 2 ^ 53 ->
  num_add (canon s k) (of_Z 1)
  = binary_normalize prec emax ((cond_Zopp s (Zpos k) + 1) * 2 ^ Z.of_nat 52)
                     (- Z.of_nat 52) false.
Proof.
  intros Hk. pose proof (digits_le_prec k Hk) as Hd.
  change (of_Z 1) with (S754_finite false (shl 1 52) (- Z.of_nat 52)).
  unfold canon. set (d := Zpos (digits2_pos k)) in *.
  assert (1 <= d) by (unfold d; lia).
  replace (d - 53) with (- Z.of_nat (Z.to_nat (53 - d))) by lia.
  unfold num_add, SFadd.
  replace (Z.min (- Z.of_nat (Z.to_nat (53 - d))) (- Z.of_nat 52))
    with (- Z.of_nat 52) by lia.
  rewrite !shl_align_shl by lia. cbn [fst].
  f_equal. rewrite !Zpos_shl. destruct s; simpl cond_Zopp; lia.
Qed.

(** On integers whose successor stays below [2^53], [x + 1] is exact. *)
Lemma num_add_one z :
  Z.abs z < 2 ^ 53 -> Z.abs (z + 1) < 2 ^ 53 ->
  num_add (of_Z z) (of_Z 1) = of_Z (z + 1).
Proof.
  intros Hz Hz1.
  rewrite (of_Z_canon (z + 1)), <- (binary_normalize_shl _ 52) by done.
  rewrite of_Z_canon by done. destruct z as [|k|k]; cbn [canon_Z].
  - reflexivity.
  - rewrite num_add_canon_one by lia. reflexivity.
  - rewrite num_add_canon_one by lia. reflexivity.
Qed.

(** ** Trimming leaves visible ASCII alone *)

Ltac bool_cases :=
  repeat match goal with
         | |- context [(?x <=? ?y)%N] => destruct (x <=? y)%N
         | |- context [(?x =? ?y)%N] => destruct (x =? y)%N
         end;
  reflexivity.

Lemma ws1_plain a : plain a -> ws1 a = false.
Proof.
  unfold plain, ws1. intros Ha.
  rewrite (proj2 (N.leb_le 9 a)), (proj2 (N.leb_gt a 13)) by lia.
  by rewrite (proj2 (N.eqb_neq a 32)) by lia.
Qed.

Lemma ws2_plain_l a b : plain a -> ws2 a b = false.
Proof.
  unfold plain, ws2. intros Ha. by rewrite (proj2 (N.eqb_neq a 194)) by lia.
Qed.

Lemma ws2_plain_r a b : plain b -> ws2 a b = false.
Proof.
  unfold plain, ws2. intros Hb. rewrite (proj2 (N.eqb_neq b 160)) by lia.
  apply andb_false_r.
Qed.

Lemma ws3_plain_l a b c : plain a -> ws3 a b c = false.
Proof.
  unfold plain, ws3. intros Ha.
  rewrite !(proj2 (N.eqb_neq a _)) by lia. reflexivity.
Qed.

Lemma ws3_plain_r a b c : plain c -> ws3 a b c = false.
Proof.
  unfold plain, ws3. intros Hc.
  rewrite !(proj2 (N.eqb_neq c _)) by lia.
  rewrite (proj2 (N.leb_gt 128 c)) by lia. bool_cases.
Qed.

Lemma trim_start_plain a r : plain a -> trim_start (a :: r) = a :: r.
Proof.
  intros Ha. cbn [trim_start]. rewrite ws1_plain by done.
  destruct r as [|b [|c r]]; [done| |]; rewrite ws2_plain_l by done; [done|].
  by rewrite ws3_plain_l.
Qed.

Lemma trim_start_rev_plain a r : plain a -> trim_start_rev (a :: r) = a :: r.
Proof.
  intros Ha. cbn [trim_start_rev]. rewrite ws1_plain by done.
  destruct r as [|b [|c r]]; [done| |]; rewrite ws2_plain_r by done; [done|].
  by rewrite ws3_plain_r.
Qed.

Lemma of_codes_codes s : of_codes (codes s) = s.
Proof.
  induction s as [|c r IH]; [done|].
  unfold of_codes, codes in *.
  cbn [list_ascii_of_string fmap list_fmap string_of_list_ascii].
  unfold code at 1. rewrite ascii_N_embedding. f_equal. exact IH.
Qed.

Lemma trim_plain s : Forall plain (codes s) -> trim s = s.
Proof.
  intros Hs. unfold trim.
  assert (trim_start (codes s) = codes s) as ->.
  { destruct (codes s) as [|a r]; [done|].
    apply trim_start_plain. by inversion Hs. }
  assert (trim_start_rev (rev (codes s)) = rev (codes s)) as ->.
  { destruct (rev (codes s)) as [|a r] eqn:Hr; [done|].
    apply trim_start_rev_plain.
    eapply (proj1 (Forall_forall _ _)); [exact Hs|].
    apply list_elem_of_In, in_rev. rewrite Hr. by left. }
  rewrite rev_involutive. apply of_codes_codes.
Qed.

(** ** [Number] on decimal integer literals *)

Ltac code_neq :=
  match goal with
  | |- code _ <> code ?d =>
      let n := eval vm_compute in (code d) in change (code d) with n; lia
  end.

Lemma char_neq c d : code c <> code d -> (c =? d)%char = false.
Proof. intros H. apply Ascii.eqb_neq. congruence. Qed.

Lemma digit_of_decimal c :
  digit_code (code c) -> digit_of 10 c = Some (code c - 48)%N.
Proof.
  unfold digit_code, digit_of. intros Hc.
  rewrite (proj2 (N.leb_le 48 (code c))), (proj2 (N.leb_le (code c) 57)) by lia.
  cbn [andb]. by rewrite (proj2 (N.ltb_lt (code c - 48) 10)) by lia.
Qed.

Lemma digits_value_step c r acc v :
  digits_value (String c r) acc = Some v ->
  digit_code (code c) /\ digits_value r (10 * acc + (code c - 48))%N = Some v.
Proof.
  cbn [digits_value]. unfold digit_code.
  destruct (N.leb_spec 48 (code c)), (N.leb_spec (code c) 57);
    cbn [andb]; intros; try done.
Qed.

Lemma read_digits_decimal s acc cnt v :
  digits_value s acc = Some v ->
  read_digits 10 s acc cnt = (v, (cnt + String.length s)%nat, EmptyString).
Proof.
  revert acc cnt. induction s as [|c r IH]; intros acc cnt Hv.
  - cbn in *. inversion Hv. do 2 f_equal. lia.
  - apply digits_value_step in Hv as [Hc Hv].
    cbn [read_digits String.length]. rewrite digit_of_decimal by done.
    rewrite (IH _ _ Hv). do 2 f_equal. lia.
Qed.

Lemma digits_value_codes s acc v :
  digits_value s acc = Some v -> Forall digit_code (codes s).
Proof.
  revert acc. induction s as [|c r IH]; intros acc Hv; [constructor|].
  apply digits_value_step in Hv as [Hc Hv]. constructor; eauto.
Qed.

(** The shape of a decimal integer literal: sign, digits, value. *)
Lemma decimal_integer_inv s z :
  decimal_integer s = Some z ->
  exists neg u v,
    read_sign s = (neg, u) /\ u <> EmptyString /\
    digits_value u 0 = Some v /\ z = cond_Zopp neg (Z.of_N v) /\
    Forall plain (codes s).
Proof.
  unfold decimal_integer. destruct (read_sign s) as [neg u] eqn:Hs.
  destruct u as [|c r]; [done|]. set (u := String c r) in *.
  destruct (digits_value u 0) as [v|] eqn:Hv; [|done].
  intros [= <-]. exists neg, u, v. repeat split; try done.
  assert (Forall plain (codes u)) as Hpl.
  { eapply Forall_impl; [by eapply digits_value_codes|].
    unfold digit_code, plain. lia. }
  unfold read_sign in Hs. destruct s as [|a r']; [done|].
  destruct (Ascii.eqb_spec a "+") as [->|];
    [|destruct (Ascii.eqb_spec a "-") as [->|]];
    inversion Hs; subst; try done;
    (constructor; [by vm_compute|done]).
Qed.

Lemma parse_non_decimal_decimal neg u v s :
  read_sign s = (neg, u) -> digits_value u 0 = Some v ->
  parse_non_decimal s = None.
Proof.
  intros Hs Hv. destruct s as [|a [|b r]]; [done..|].
  cbn [parse_non_decimal].
  destruct (Ascii.eqb_spec a "0") as [->|]; [|done]. cbn [negb].
  cbn in Hs. inversion Hs; subst.
  apply digits_value_step in Hv as [_ Hv].
  apply digits_value_step in Hv as [Hb _]. unfold digit_code in Hb.
  rewrite !char_neq by code_neq. done.
Qed.

Lemma parse_unsigned_decimal_digits u v :
  u <> EmptyString -> digits_value u 0 = Some v ->
  parse_unsigned_decimal u = Some (v, 0).
Proof.
  intros Hu Hv. unfold parse_unsigned_decimal.
  rewrite (read_digits_decimal _ _ _ _ Hv).
  destruct u as [|c r]; [done|]. reflexivity.
Qed.

Lemma not_infinity_digits u v :
  digits_value u 0 = Some v -> String.eqb u "Infinity" = false.
Proof.
  intros Hv. destruct u as [|c r]; [done|].
  apply digits_value_step in Hv as [Hc _]. unfold digit_code in Hc.
  cbn [String.eqb]. by rewrite char_neq by code_neq.
Qed.

Lemma of_decimal_integer neg v :
  of_decimal neg v 0
  = match v with
    | N0 => S754_zero neg
    | Npos p => of_Z (cond_Zopp neg (Zpos p))
    end.
Proof.
  destruct v as [|p]; [done|]. unfold of_decimal, of_Z. cbn [Z.leb Z.compare].
  do 2 f_equal. lia.
Qed.

(** [Number] of a decimal integer literal is the double nearest to the
    integer, and a zero of either sign for a literal that denotes zero. *)
Lemma StringToNumber_decimal_integer s z :
  decimal_integer s = Some z ->
  if z =? 0 then is_zero (StringToNumber s) = true
  else StringToNumber s = of_Z z.
Proof.
  intros Hz.
  destruct (decimal_integer_inv s z Hz)
    as (neg & u & v & Hs & Hu & Hv & -> & Hpl).
  unfold StringToNumber. rewrite trim_plain by done.
  assert (s <> EmptyString) as Hne by (intros ->; cbn in Hs; congruence).
  destruct s as [|a r] eqn:Es; [done|]. rewrite <- Es in *.
  unfold parse_numeric_literal.
  rewrite (parse_non_decimal_decimal _ _ _ _ Hs Hv), Hs.
  rewrite (not_infinity_digits _ _ Hv), (parse_unsigned_decimal_digits _ _ Hu Hv).
  rewrite of_decimal_integer. destruct v as [|p]; destruct neg; done.
Qed.

End JSFacts.

(* ===================================================================== *)
(** * Properties of the development server *)
(* ===================================================================== *)

Module DevServerProps.
Import JS JSFacts DevServer.

Lemma env_get_Some (env : gmap string string) (k s : string) :
  env !! k = Some s -> env_get env k = VString s.
Proof. unfold env_get. by intros ->. Qed.

Lemma env_get_None (env : gmap string string) (k : string) :
  env !! k = None -> env_get env k = VUndefined.
Proof. unfold env_get. by intros ->. Qed.

(** The port is the sum when the sum is truthy, and 8096 otherwise. *)
Lemma port_unfold env :
  port env =
  let v := num_add (ToNumber (env_get env "FRONTEND_PORT")) (of_Z 1) in
  VNumber (if is_nan v || is_zero v then of_Z 8096 else v).
Proof.
  unfold port, js_or. cbn [ToBoolean].
  by destruct (is_nan _ || is_zero _).
Qed.

Lemma port_decimal_integer env s z :
  env !! "FRONTEND_PORT" = Some s ->
  decimal_integer s = Some z ->
  - 2 ^ 53 < z < 2 ^ 53 - 1 ->
  port env = VNumber (of_Z (if z =? -1 then 8096 else z + 1)).
Proof.
  intros Hs Hz Hr. rewrite port_unfold, (env_get_Some _ _ _ Hs).
  cbn [ToNumber]. cbv zeta.
  assert (num_add (StringToNumber s) (of_Z 1) = of_Z (z + 1)) as ->.
  { pose proof (StringToNumber_decimal_integer s z Hz) as Hn.
    destruct (Z.eqb_spec z 0) as [->|Hz0].
    - by destruct (StringToNumber s).
    - rewrite Hn. apply num_add_one; lia. }
  rewrite of_Z_falsy by lia.
  destruct (Z.eqb_spec z (-1)) as [->|]; [done|].
  by destruct (Z.eqb_spec (z + 1) 0); [lia|].
Qed.

(** C1, as amended.  The listen port is [Number(FRONTEND_PORT) + 1] in
    double arithmetic whenever that sum is neither [NaN] nor zero, and 8096
    otherwise.  So: when [FRONTEND_PORT] is absent the port is 8096; when
    [Number] does not read it as a number the port is 8096; when it is a
    decimal integer literal [z] with [-2^53 < z < 2^53 - 1] the port is
    [z + 1], except for [z = -1], where it is 8096. *)
Theorem port_resolution (env : gmap string string) :
  (env !! "FRONTEND_PORT" = None -> port env = VNumber (of_Z 8096)) /\
  (forall s, env !! "FRONTEND_PORT" = Some s ->
     let v := num_add (StringToNumber s) (of_Z 1) in
     port env = VNumber (if is_nan v || is_zero v then of_Z 8096 else v)) /\
  (forall s, env !! "FRONTEND_PORT" = Some s ->
     is_nan (StringToNumber s) = true -> port env = VNumber (of_Z 8096)) /\
  (forall s z, env !! "FRONTEND_PORT" = Some s ->
     decimal_integer s = Some z -> - 2 ^ 53 < z < 2 ^ 53 - 1 ->
     let p := if z =? -1 then 8096 else z + 1 in
     port env = VNumber (of_Z p) /\ integer_value (of_Z p) = Some p).
Proof.
  assert (forall s, env !! "FRONTEND_PORT" = Some s ->
            let v := num_add (StringToNumber s) (of_Z 1) in
            port env = VNumber (if is_nan v || is_zero v then of_Z 8096 else v))
    as Hsum.
  { intros s Hs. rewrite port_unfold, (env_get_Some _ _ _ Hs). reflexivity. }
  split; [|split; [|split]].
  - intros Hs. rewrite port_unfold, (env_get_None _ _ Hs). reflexivity.
  - exact Hsum.
  - intros s Hs Hnan. rewrite (Hsum s Hs). cbv zeta.
    by destruct (StringToNumber s).
  - intros s z Hs Hz Hr. split; [by apply (port_decimal_integer env s z)|].
    apply integer_value_of_Z. destruct (z =? -1); [by vm_compute|lia].
Qed.

Lemma port_resolution_witness :
  port {[ "FRONTEND_PORT" := "8095" ]} = VNumber (of_Z 8096) /\
  port {[ "FRONTEND_PORT" := "webrecorder" ]} = VNumber (of_Z 8096) /\
  port ∅ = VNumber (of_Z 8096).
Proof.
  split; [|split].
  - apply (proj2 (proj2 (proj2 (port_resolution {[ "FRONTEND_PORT" := "8095" ]})))
             "8095"%string 8095); [reflexivity | reflexivity | lia].
  - apply (proj1 (proj2 (proj2
             (port_resolution {[ "FRONTEND_PORT" := "webrecorder" ]})))
             "webrecorder"%string); reflexivity.
  - apply (proj1 (port_resolution ∅)). reflexivity.
Defined.

(** A blank value counts as zero, and beyond [2^53] adding one is lost in
    rounding. *)
Lemma port_corner_cases :
  port {[ "FRONTEND_PORT" := "" ]} = VNumber (of_Z 1) /\
  port {[ "FRONTEND_PORT" := "  " ]} = VNumber (of_Z 1) /\
  port {[ "FRONTEND_PORT" := "0x1F9F" ]} = VNumber (of_Z 8096) /\
  port {[ "FRONTEND_PORT" := "9007199254740992" ]}
    = VNumber (of_Z 9007199254740992).
Proof. by repeat split. Qed.

(** C1, as stated, fails: ["-1"] is a numeric value, yet the port is 8096
    and not [-1 + 1]. *)
Lemma port_minus_one_falls_back :
  decimal_integer "-1" = Some (-1) /\
  port {[ "FRONTEND_PORT" := "-1" ]} = VNumber (of_Z 8096) /\
  port {[ "FRONTEND_PORT" := "-1" ]} <> VNumber (of_Z (-1 + 1)).
Proof.
  split; [reflexivity|]. split; [reflexivity|]. vm_compute. discriminate.
Qed.

(** C5.  [serverOptions] holds the watch options (debounce 300, polling
    interval 1000), but the one bundler middleware that the server mounts is
    given another options object, which has none. *)
Theorem watch_options_dropped (env : gmap string string) (pp : string)
    (err : value) :
  watchOptions (serverOptions env pp)
    = Some {| aggregateTimeout := 300; poll := 1000 |} /\
  dev_middlewares (startup env pp err) = [devMiddlewareOptions env pp] /\
  watchOptions (devMiddlewareOptions env pp) = None.
Proof.
  split; [reflexivity|]. split; [|reflexivity].
  unfold startup, listen_callback. by destruct (ToBoolean err).
Qed.

(** A successful run is a start-up whose callback gets no error. *)
Lemma run_bound env pp v : run env pp v Bound = startup env pp VUndefined.
Proof. reflexivity. Qed.

(** C7.  When binding fails, the run calls [app.listen] once, with the
    resolved port, and never announces that the server listens; the error
    is reported exactly once.  Under Express 4 the callback is not called:
    the error goes uncaught, so that Node writes it to the error stream and
    ends the process.  Under Express 5 the callback gets the error and
    passes it to [console.error], and nothing follows. *)
Theorem bind_failure_logged_once (env : gmap string string) (pp : string)
    (v : express) (e : nat) :
  let t := run env pp v (BindFailed e) in
  listen_calls t = [port env] /\
  info_logs t = [] /\
  error_logs t ++ uncaught_errors t = [VObject e] /\
  match v with
  | Express4 => t = main env pp ++ [Uncaught (VObject e)]
  | Express5 => t = main env pp ++ [ConsoleError (VObject e)]
  end.
Proof. by destruct v. Qed.

Section AssetResponses.

(** [serve opts path]: the response of the bundler middleware to a
    request, when it answers it.  The middleware sets every header of its
    [headers] option on what it serves. *)
Variable serve : middleware_options -> string -> option response.
Hypothesis serve_sets_headers : forall opts path resp hs,
  serve opts path = Some resp -> headers opts = Some hs ->
  hs ⊆ response_headers resp.

(** C9.  Every response of the bundler middleware that the server mounts
    carries [Access-Control-Allow-Origin: *]. *)
Theorem assets_allow_any_origin (env : gmap string string) (pp : string)
    (err : value) (opts : middleware_options) (path : string)
    (resp : response) :
  opts ∈ dev_middlewares (startup env pp err) ->
  serve opts path = Some resp ->
  response_headers resp !! "Access-Control-Allow-Origin" = Some "*".
Proof.
  intros Ho Hresp.
  assert (opts = devMiddlewareOptions env pp) as ->.
  { unfold startup, listen_callback in Ho.
    destruct (ToBoolean err); cbn in Ho;
      by apply list_elem_of_singleton in Ho. }
  eapply lookup_weaken; [|by eapply serve_sets_headers].
  apply lookup_singleton_eq.
Qed.

End AssetResponses.

Lemma static_serve_sets_headers opts path resp hs :
  static_serve opts path = Some resp -> headers opts = Some hs ->
  hs ⊆ response_headers resp.
Proof.
  intros Hs Hh. unfold static_serve in Hs.
  destruct (publicPath opts); [|discriminate].
  destruct (String.prefix _ _); [|discriminate].
  inversion Hs; subst; clear Hs. cbn [response_headers]. rewrite Hh.
  apply map_union_subseteq_l.
Defined.

Lemma assets_allow_any_origin_witness :
  response_headers
    {| status := 200;
       response_headers :=
         {[ "Access-Control-Allow-Origin" := "*" ]}
         ∪ {[ "Content-Type" := "application/javascript" ]} |}
    !! "Access-Control-Allow-Origin" = Some "*".
Proof.
  refine (assets_allow_any_origin static_serve static_serve_sets_headers
            ∅ "/static/" VUndefined
            (devMiddlewareOptions ∅ "/static/") "/static/main.js" _ _ _).
  - apply list_elem_of_singleton. reflexivity.
  - reflexivity.
Defined.

End DevServerProps.

(* ===================================================================== *)
(** * Properties of the client bootstrap *)
(* ===================================================================== *)

Module ClientProps.
Import JS Client.

Ltac unfold_page :=
  unfold client_js, hot_callback, renderApp, ReactDOM_hydrate, hot_accept,
    Raven_install, createStore, new_ApiClient, require, getElementById,
    set_window, get_window, fresh, emit, bind, ret.

Ltac fields :=
  cbn [window document modules next_id containers error_handlers
       hot_accepted trace add_event next_object put_window put_module
       put_container add_handler add_accepted page
       cl_store cl_dest cl_client from_option default app fst snd].

(** Runs the module body on a fresh page, one case per outcome. *)
Ltac run_client_js b doc mods :=
  unfold client_js;
  destruct (ToBoolean (ravenConfig b)), (ravenAccepts b),
    (ToBoolean (PLAYER b)), (module_hot b && negb (ToBoolean (DESKTOP b)));
  unfold_page; fields;
  try destruct (mods !! "./playerRoutes"); fields;
  destruct (doc !! "app"); fields.

Section Bootstrap.
Context {dom_tree : Type}.
Variable reconcile : element -> option dom_tree -> dom_tree.

(** ** Loading *)

Lemma client_js_load b win doc mods n c (w : world dom_tree) :
  client_js reconcile b (page win doc mods n) = (Some c, w) ->
  exists d routes,
    doc !! "app" = Some d /\ initial_routes b mods = Some routes /\
    c = {| cl_store := VObject (S (S n)); cl_dest := VObject d;
           cl_client := VObject n |} /\
    hot_accepted w = (if subscribes b then [("./baseRoute", c)] else []) /\
    error_handlers w
    = (if ToBoolean (ravenConfig b) then [ravenConfig b] else []) /\
    trace w =
      [ EvNewApiClient (VObject n);
        EvAppendScript (VObject (S n))
          "http://127.0.0.1:8096/static/main-ce6d544a4ec204f36b27.js" true;
        EvSetWindow "wrAppContainer" (VObject d);
        EvCreateStore (VObject n)
          (default VUndefined
             (<["wrAppContainer" := VObject d]> win !! "__data"))
          (VObject (S (S n))) ]
      ++ (if ToBoolean (ravenConfig b)
          then [EvRavenInstall (ravenConfig b)] else [])
      ++ (if ToBoolean (PLAYER b) then [EvRequire "./playerRoutes"] else [])
      ++ [ EvHydrate
             (app_element (VObject (S (S n)))
                {[ "routes" := routes; "client" := VObject n ]})
             (VObject d) ]
      ++ (if subscribes b then [EvHotAccept "./baseRoute"] else []).
Proof.
  unfold initial_routes, subscribes. run_client_js b doc mods;
    intros [= <- <-]; do 2 eexists; repeat apply conj; reflexivity.
Qed.

Lemma load_mounted b win doc mods n c (w : world dom_tree) :
  client_js reconcile b (page win doc mods n) = (Some c, w) ->
  mounted b c w.
Proof.
  intros Hload.
  destruct (client_js_load _ _ _ _ _ _ _ Hload)
    as (d & routes & _ & _ & -> & Hacc & Hh & Ht).
  split; rewrite ?Ht; try done; [by eexists|..];
    destruct (ToBoolean (ravenConfig b)), (ToBoolean (PLAYER b)),
      (subscribes b); cbn; repeat constructor.
Qed.

(** ** Updates of the route definitions *)

Lemma hot_callback_run c d exports (w : world dom_tree) :
  cl_dest c = VObject d ->
  modules w !! "./baseRoute" = Some exports ->
  hot_callback reconcile c w =
  (Some tt,
   put_container d (reconcile (rerendered c exports) (containers w !! d))
     (add_event (EvHydrate (rerendered c exports) (VObject d))
        (add_event (EvSetWindow "__isReactDndBackendSetUp" (VBool false))
           (put_window "__isReactDndBackendSetUp" (VBool false)
              (add_event (EvRequire "./baseRoute") w))))).
Proof.
  intros Hd Hm. unfold_page. fields. rewrite Hm, Hd. reflexivity.
Qed.

Lemma hot_update_subscribed c d exports (w : world dom_tree) :
  cl_dest c = VObject d ->
  hot_accepted w = [("./baseRoute", c)] ->
  exists w',
    hot_update reconcile "./baseRoute" exports w = (Some tt, w') /\
    window w' = <["__isReactDndBackendSetUp" := VBool false]> (window w) /\
    modules w' = <["./baseRoute" := exports]> (modules w) /\
    error_handlers w' = error_handlers w /\
    hot_accepted w' = hot_accepted w /\
    trace w' =
      trace w ++
      [ EvRequire "./baseRoute";
        EvSetWindow "__isReactDndBackendSetUp" (VBool false);
        EvHydrate (rerendered c exports) (cl_dest c) ].
Proof.
  intros Hd Hacc. unfold hot_update. rewrite Hacc.
  cbn [run_callbacks]. change (String.eqb _ _) with true. cbv iota.
  unfold bind at 1.
  rewrite (hot_callback_run c d exports)
    by (done || apply lookup_insert_eq).
  eexists. split; [reflexivity|]. fields. rewrite Hd, <- !app_assoc.
  by repeat split.
Qed.

Lemma hot_update_unsubscribed path exports (w : world dom_tree) :
  hot_accepted w = [] ->
  hot_update reconcile path exports w = (Some tt, put_module path exports w).
Proof. intros Hacc. unfold hot_update. by rewrite Hacc. Qed.

Lemma update_mounted b c exports (w w' : world dom_tree) :
  mounted b c w ->
  hot_update reconcile "./baseRoute" exports w = (Some tt, w') ->
  mounted b c w'.
Proof.
  intros [[d Hd] Hacc Hh Hi Ha Hs Hr] Hup.
  destruct (subscribes b) eqn:Hsub.
  - destruct (hot_update_subscribed c d exports w Hd Hacc)
      as (w2 & Hup2 & _ & _ & Hh2 & Hacc2 & Ht2).
    rewrite Hup in Hup2. injection Hup2 as <-.
    split; rewrite ?Hsub, ?Ht2; try congruence; [by eexists|..];
      unfold raven_installs, hot_accepts, stores_created, hydrations;
      rewrite omap_app; cbn [omap]; rewrite ?app_nil_r; try done.
    apply Forall_app. split; [done|]. by repeat constructor.
  - rewrite hot_update_unsubscribed in Hup by done.
    injection Hup as <-. split; rewrite ?Hsub; try done. by eexists.
Qed.

(** Every page that the script has loaded is [mounted], whatever updates
    have been delivered since. *)
Lemma reachable_mounted b win doc mods n c (w : world dom_tree) :
  reachable reconcile b (page win doc mods n) c w -> mounted b c w.
Proof.
  induction 1 as [c w Hload|c w exports w' _ IH Hup].
  - by eapply load_mounted.
  - by eapply update_mounted.
Qed.

(** C2.  While the subscription is active, a change notification for the
    route definitions runs to completion and adds to the trace exactly:
    the [require] of the module, which yields the new exports; the reset
    of [window.__isReactDndBackendSetUp] to [false]; and one
    [ReactDOM.hydrate] call into the mount element, whose [Root] props
    carry the new exports as [routes]. *)
Theorem hot_update_renders_once b win doc mods n c exports
    (w : world dom_tree) :
  reachable reconcile b (page win doc mods n) c w ->
  subscribes b = true ->
  exists w',
    hot_update reconcile "./baseRoute" exports w = (Some tt, w') /\
    modules w' !! "./baseRoute" = Some exports /\
    window w' !! "__isReactDndBackendSetUp" = Some (VBool false) /\
    trace w' =
      trace w ++
      [ EvRequire "./baseRoute";
        EvSetWindow "__isReactDndBackendSetUp" (VBool false);
        EvHydrate (rerendered c exports) (cl_dest c) ] /\
    hydrations (trace w')
    = hydrations (trace w) ++ [(rerendered c exports, cl_dest c)] /\
    root_props (rerendered c exports) ≫= (.!! "routes") = Some exports.
Proof.
  intros Hreach Hsub.
  destruct (reachable_mounted _ _ _ _ _ _ _ Hreach)
    as [[d Hd] Hacc _ _ _ _ _].
  rewrite Hsub in Hacc.
  destruct (hot_update_subscribed c d exports w Hd Hacc)
    as (w' & Hup & Hwin & Hmod & _ & _ & Ht).
  exists w'. split; [done|]. rewrite Hwin, Hmod, Ht.
  split; [apply lookup_insert_eq|]. split; [apply lookup_insert_eq|].
  split; [done|]. split.
  - unfold hydrations. by rewrite omap_app.
  - cbn. apply lookup_union_Some_l, lookup_insert_eq.
Qed.

(** C3.  With [__DESKTOP__] set, whether or not [module.hot] is defined,
    the script accepts no update: no callback is registered, no
    [module.hot.accept] call is made, and an update of the route
    definitions renders nothing. *)
Theorem desktop_never_subscribes b win doc mods n c (w : world dom_tree) :
  reachable reconcile b (page win doc mods n) c w ->
  ToBoolean (DESKTOP b) = true ->
  hot_accepted w = [] /\ hot_accepts (trace w) = [] /\
  (forall exports w',
     hot_update reconcile "./baseRoute" exports w = (Some tt, w') ->
     hydrations (trace w') = hydrations (trace w)).
Proof.
  intros Hreach Hdesk.
  destruct (reachable_mounted _ _ _ _ _ _ _ Hreach) as [_ Hacc _ _ Ha _ _].
  assert (subscribes b = false) as Hsub
    by (unfold subscribes; rewrite Hdesk; apply andb_false_r).
  rewrite Hsub in Hacc, Ha. repeat split; try done.
  intros exports w' Hup. rewrite hot_update_unsubscribed in Hup by done.
  by injection Hup as <-.
Qed.

(** C4, as amended.  The store is constructed once per page load and is
    kept across hot reloads: every render, the hot re-renders included,
    hands to [Provider] the store that was constructed at page load. *)
Theorem store_kept_across_hot_reload b win doc mods n c
    (w : world dom_tree) :
  reachable reconcile b (page win doc mods n) c w ->
  stores_created (trace w) = [cl_store c] /\
  Forall (fun h => provider_store h.1 = Some (cl_store c))
         (hydrations (trace w)).
Proof.
  intros Hreach.
  destruct (reachable_mounted _ _ _ _ _ _ _ Hreach) as [_ _ _ _ _ Hs Hr].
  split; [done|]. eapply Forall_impl; [exact Hr|]. by intros h [? _].
Qed.

(** C6, as amended.  However the module body ends, a global handler is
    installed if and only if [config.ravenConfig] is truthy and Raven takes
    it for a DSN; it is then the only handler.  With a falsy
    [config.ravenConfig] nothing is installed and an uncaught error gets
    the browser's default handling alone.  With a truthy value that Raven
    rejects, [Raven.config] throws: nothing is installed, and the module
    body stops there, before the first render. *)
Theorem raven_installed_iff_configured b win doc mods n r
    (w : world dom_tree) :
  client_js reconcile b (page win doc mods n) = (r, w) ->
  (error_handlers w <> [] <->
   ToBoolean (ravenConfig b) = true /\ ravenAccepts b = true) /\
  error_handlers w
  = (if ToBoolean (ravenConfig b) && ravenAccepts b
     then [ravenConfig b] else []) /\
  raven_installs (trace w) = error_handlers w /\
  (ToBoolean (ravenConfig b) = false -> uncaught_error w = [BrowserDefault]) /\
  (ToBoolean (ravenConfig b) = true -> ravenAccepts b = false ->
   r = None /\ hydrations (trace w) = [] /\
   uncaught_error w = [BrowserDefault]).
Proof.
  unfold uncaught_error. run_client_js b doc mods;
    intros [= <- <-]; fields; cbn; repeat split; try done;
    by intros [? ?].
Qed.

(** ** Rendering twice *)


End Bootstrap.

(** ** On the example page *)

Import Example.

Lemma loaded_reachable : reachable show dev_build start consts loaded.
Proof. apply reach_load. reflexivity. Defined.

Lemma loaded_desktop_reachable :
  reachable show desktop_build start
    {| cl_store := VObject 4; cl_dest := VObject 1; cl_client := VObject 2 |}
    loaded_desktop.
Proof. apply reach_load. reflexivity. Defined.

Lemma hot_update_renders_once_witness :
  exists w',
    hot_update show "./baseRoute" (VObject 7) loaded = (Some tt, w') /\
    modules w' !! "./baseRoute" = Some (VObject 7) /\
    window w' !! "__isReactDndBackendSetUp" = Some (VBool false) /\
    trace w' =
      trace loaded ++
      [ EvRequire "./baseRoute";
        EvSetWindow "__isReactDndBackendSetUp" (VBool false);
        EvHydrate (rerendered consts (VObject 7)) (cl_dest consts) ] /\
    hydrations (trace w')
    = hydrations (trace loaded)
      ++ [(rerendered consts (VObject 7), cl_dest consts)] /\
    root_props (rerendered consts (VObject 7)) ≫= (.!! "routes")
    = Some (VObject 7).
Proof.
  exact (hot_update_renders_once show dev_build ∅ doc mods 2 consts
           (VObject 7) loaded loaded_reachable eq_refl).
Defined.

Lemma desktop_never_subscribes_witness :
  hot_accepted loaded_desktop = [] /\
  hot_accepts (trace loaded_desktop) = [] /\
  (forall exports w',
     hot_update show "./baseRoute" exports loaded_desktop = (Some tt, w') ->
     hydrations (trace w') = hydrations (trace loaded_desktop)).
Proof.
  exact (desktop_never_subscribes show desktop_build ∅ doc mods 2 _
           loaded_desktop loaded_desktop_reachable eq_refl).
Defined.

Lemma store_kept_across_hot_reload_witness :
  stores_created (trace loaded) = [VObject 4] /\
  Forall (fun h => provider_store h.1 = Some (VObject 4))
         (hydrations (trace loaded)).
Proof.
  exact (store_kept_across_hot_reload show dev_build ∅ doc mods 2 consts
           loaded loaded_reachable).
Defined.

(** C4, as stated, fails: after a hot reload on the example page one store
    has been constructed, and the hot re-render hands to [Provider] the
    very store of the first render. *)
Lemma hot_reload_reuses_store :
  let w := (hot_update show "./baseRoute" (VObject 7) loaded).2 in
  (hot_update show "./baseRoute" (VObject 7) loaded).1 = Some tt /\
  stores_created (trace w) = [VObject 4] /\
  (provider_store ∘ fst) <$> hydrations (trace w)
  = [Some (VObject 4); Some (VObject 4)].
Proof. vm_compute. by repeat split. Qed.

Lemma raven_installed_iff_configured_witness :
  error_handlers loaded_desktop = [ravenConfig desktop_build] /\
  raven_installs (trace loaded_desktop) = error_handlers loaded_desktop /\
  error_handlers loaded = [] /\
  uncaught_error loaded = [BrowserDefault] /\
  error_handlers rejected = [] /\
  hydrations (trace rejected) = [].
Proof.
  pose proof (raven_installed_iff_configured show desktop_build ∅ doc mods 2
                _ loaded_desktop eq_refl) as (_ & Hd & Hi & _).
  pose proof (raven_installed_iff_configured show dev_build ∅ doc mods 2
                _ loaded eq_refl) as (_ & Hl & _ & Hu & _).
  pose proof (raven_installed_iff_configured show rejected_build ∅ doc mods 2
                _ rejected eq_refl) as (_ & Hr & _ & _ & Hx).
  destruct (Hx eq_refl eq_refl) as (_ & Hh & _).
  split; [exact Hd|]. split; [exact Hi|]. split; [exact Hl|].
  split; [exact (Hu eq_refl)|]. split; [exact Hr|exact Hh].
Defined.

(** C6, as stated, fails: with [config.ravenConfig] set to a string that
    Raven rejects, the endpoint is configured as far as the guard is
    concerned, yet no handler is installed: the module body throws at
    [Raven.config] and renders nothing. *)
Lemma rejected_dsn_installs_nothing :
  ~ (error_handlers rejected <> [] <->
     ToBoolean (ravenConfig rejected_build) = true) /\
  ToBoolean (ravenConfig rejected_build) = true /\
  (client_js show rejected_build start).1 = None /\
  error_handlers rejected = [] /\
  raven_installs (trace rejected) = [] /\
  hydrations (trace rejected) = [].
Proof.
  split; [|vm_compute; by repeat split].
  intros [_ H]. by apply (H eq_refl).
Qed.


End ClientProps.

(* ===================================================================== *)
(** * Properties of the shell entry point *)
(* ===================================================================== *)

Module RunShProps.
Import RunSh.

(** C10.  With [NODE_ENV] equal to [development] the script announces a
    production build and runs [docker-prod]; with any other value, or with
    the variable unset, it announces a development build and runs
    [docker-dev]. *)
Theorem run_sh_inverted (env : gmap string string) :
  (env !! "NODE_ENV" = Some "development" ->
   run_sh env = [Echo "running production build"; NpmRun "docker-prod"]) /\
  (env !! "NODE_ENV" <> Some "development" ->
   run_sh env = [Echo "running development build"; NpmRun "docker-dev"]).
Proof.
  unfold run_sh, test_eq, expand. split.
  - intros ->. reflexivity.
  - intros Hne. destruct (env !! "NODE_ENV") as [s|] eqn:Hs; [|reflexivity].
    cbn [default from_option id].
    destruct (String.eqb_spec s "development") as [->|]; [by destruct Hne|done].
Qed.

Lemma run_sh_inverted_witness :
  run_sh {[ "NODE_ENV" := "development" ]}
    = [Echo "running production build"; NpmRun "docker-prod"] /\
  run_sh {[ "NODE_ENV" := "production" ]}
    = [Echo "running development build"; NpmRun "docker-dev"] /\
  run_sh ∅ = [Echo "running development build"; NpmRun "docker-dev"].
Proof.
  split; [|split].
  - apply (proj1 (run_sh_inverted {[ "NODE_ENV" := "development" ]})).
    reflexivity.
  - apply (proj2 (run_sh_inverted {[ "NODE_ENV" := "production" ]})).
    discriminate.
  - apply (proj2 (run_sh_inverted ∅)). discriminate.
Defined.

End RunShProps.

(* ===================================================================== *)
(** * Further properties of [Number]: blanks *)
(* ===================================================================== *)

Module NumberEdges.
Import JS JSFacts.

(** ** Blanks around a literal *)


Lemma trim_start_blank l r :
  Forall (fun a => ws1 a = true) l -> trim_start (l ++ r) = trim_start r.
Proof.
  induction 1 as [|a l Ha _ IH]; [done|]. cbn [app trim_start].
  by rewrite Ha.
Qed.




Lemma trim_blank s : blank s -> trim s = EmptyString.
Proof.
  unfold blank, trim. intros Hs.
  rewrite <- (app_nil_r (codes s)), trim_start_blank by done. reflexivity.
Qed.


Lemma StringToNumber_blank s : blank s -> StringToNumber s = S754_zero false.
Proof. intros Hs. unfold StringToNumber. by rewrite trim_blank. Qed.

End NumberEdges.

(* ===================================================================== *)
(** * Further properties of the development server *)
(* ===================================================================== *)

Module DevServerEdges.
Import JS JSFacts NumberEdges DevServer DevServerProps.


(** X1.  The host is [APP_HOST] when that variable is set and not empty,
    and [127.0.0.1] when it is unset or empty. *)
Theorem host_resolution (env : gmap string string) :
  (env !! "APP_HOST" = None -> host env = VString "127.0.0.1") /\
  (env !! "APP_HOST" = Some EmptyString -> host env = VString "127.0.0.1") /\
  (forall s, env !! "APP_HOST" = Some s -> s <> EmptyString ->
     host env = VString s).
Proof.
  unfold host, js_or, env_get. split; [|split].
  - by intros ->.
  - by intros ->.
  - intros s -> Hs. cbn [ToBoolean].
    by destruct (String.eqb_spec s EmptyString).
Qed.

Lemma host_resolution_witness :
  host ∅ = VString "127.0.0.1" /\
  host {[ "APP_HOST" := EmptyString ]} = VString "127.0.0.1" /\
  host {[ "APP_HOST" := "0.0.0.0" ]} = VString "0.0.0.0".
Proof.
  split; [|split].
  - apply (proj1 (host_resolution ∅)). reflexivity.
  - apply (proj1 (proj2 (host_resolution {[ "APP_HOST" := EmptyString ]}))).
    reflexivity.
  - apply (proj2 (proj2 (host_resolution {[ "APP_HOST" := "0.0.0.0" ]}))
             "0.0.0.0"%string); [reflexivity|discriminate].
Defined.

(** X2.  Whatever the environment, the port handed to [app.listen] is a
    number that is neither [NaN] nor a zero. *)
Theorem port_never_falsy (env : gmap string string) :
  exists n, port env = VNumber n /\ is_nan n = false /\ is_zero n = false.
Proof.
  rewrite port_unfold. cbv zeta.
  destruct (is_nan _ || is_zero _) eqn:Hf.
  - by eexists.
  - eexists. split; [done|]. by apply orb_false_elim in Hf.
Qed.

(** X3.  For a decimal integer [FRONTEND_PORT] (between [-2^53] and
    [2^53 - 1], exclusive) the server never listens on that very port. *)
Theorem port_differs_from_frontend (env : gmap string string) (s : string)
    (z : Z) :
  env !! "FRONTEND_PORT" = Some s -> decimal_integer s = Some z ->
  - 2 ^ 53 < z < 2 ^ 53 - 1 ->
  exists n p, port env = VNumber n /\ integer_value n = Some p /\ p <> z.
Proof.
  intros Hs Hz Hr. exists (of_Z (if z =? -1 then 8096 else z + 1)).
  exists (if z =? -1 then 8096 else z + 1).
  split; [by apply (port_decimal_integer env s z)|].
  split.
  - apply integer_value_of_Z. destruct (z =? -1); [by vm_compute|lia].
  - destruct (Z.eqb_spec z (-1)); lia.
Qed.

Lemma port_differs_from_frontend_witness :
  exists n p, port {[ "FRONTEND_PORT" := "8096" ]} = VNumber n /\
              integer_value n = Some p /\ p <> 8096.
Proof.
  apply (port_differs_from_frontend {[ "FRONTEND_PORT" := "8096" ]}
           "8096"%string 8096); [reflexivity|reflexivity|lia].
Defined.




(** X5.  A [FRONTEND_PORT] that is set but holds blanks only, the empty
    string included, counts as zero: the port is 1, not the fallback. *)
Theorem port_of_blank (env : gmap string string) (s : string) :
  env !! "FRONTEND_PORT" = Some s -> blank s -> port env = VNumber (of_Z 1).
Proof.
  intros Hs Hb. rewrite port_unfold, (env_get_Some _ _ _ Hs).
  cbn [ToNumber]. by rewrite StringToNumber_blank.
Qed.

Lemma port_of_blank_witness :
  port {[ "FRONTEND_PORT" := EmptyString ]} = VNumber (of_Z 1).
Proof.
  apply (port_of_blank _ EmptyString); [reflexivity|constructor].
Defined.

(** X6.  When the listener reports no error, the start-up logs nothing to
    the error stream and writes one information line, whose argument is the
    very port that [app.listen] was called with. *)
Theorem listen_success_logged (env : gmap string string) (pp : string)
    (err : value) :
  ToBoolean err = false ->
  error_logs (startup env pp err) = [] /\
  exists p fmt,
    listen_calls (startup env pp err) = [p] /\
    info_logs (startup env pp err) = [(fmt, [p])].
Proof.
  intros Herr. unfold startup, listen_callback. rewrite Herr.
  split; [done|]. by eexists _, _.
Qed.

Lemma listen_success_logged_witness :
  error_logs (startup ∅ "/static/" VUndefined) = [] /\
  exists p fmt,
    listen_calls (startup ∅ "/static/" VUndefined) = [p] /\
    info_logs (startup ∅ "/static/" VUndefined) = [(fmt, [p])].
Proof.
  exact (listen_success_logged ∅ "/static/" VUndefined eq_refl).
Defined.

End DevServerEdges.

(* ===================================================================== *)
(** * Further properties of the client bootstrap *)
(* ===================================================================== *)

Module ClientRuns.
Import JS Client ClientProps.

Lemma stores_created_calls (t : list event) :
  stores_created t = (fun x => x.2) <$> store_calls t.
Proof.
  induction t as [|e t IH]; [done|].
  unfold stores_created, store_calls in *. destruct e; cbn; by rewrite ?IH.
Qed.

Section Runs.
Context {dom_tree : Type}.
Variable reconcile : element -> option dom_tree -> dom_tree.

(** ** Loading, whatever the outcome *)

Lemma client_js_outcome b win doc mods n r (w : world dom_tree) :
  client_js reconcile b (page win doc mods n) = (r, w) ->
  window w
  = <["wrAppContainer" := from_option VObject VNull (doc !! "app")]> win /\
  modules w = mods /\
  store_calls (trace w)
  = [(VObject n, default VUndefined (win !! "__data"), VObject (S (S n)))] /\
  scripts_appended (trace w) = [(VObject (S n), bundle_url, true)] /\
  (r = None <->
   raven_passes b = false \/ doc !! "app" = None \/
   initial_routes b mods = None) /\
  (r = None -> hot_accepted w = [] /\ hot_accepts (trace w) = []).
Proof.
  unfold initial_routes, raven_passes. run_client_js b doc mods;
    intros [= <- <-]; fields; cbn [omap];
    rewrite ?lookup_insert_ne by done; cbn;
    repeat apply conj; try done; try tauto;
    try (intros [|[|]]; done).
Qed.


(** X8.  When loading throws, the store has been created and the bundle
    script appended all the same, but no hot-reload callback has been
    registered. *)
Theorem failed_load_effects b win doc mods n (w : world dom_tree) :
  client_js reconcile b (page win doc mods n) = (None, w) ->
  hot_accepted w = [] /\ hot_accepts (trace w) = [] /\
  stores_created (trace w) = [VObject (S (S n))] /\
  scripts_appended (trace w) = [(VObject (S n), bundle_url, true)].
Proof.
  intros Hrun.
  destruct (client_js_outcome _ _ _ _ _ _ _ Hrun)
    as (_ & _ & Hst & Hsc & _ & Hno).
  destruct (Hno eq_refl) as [Ha Hb]. repeat split; try done.
  by rewrite stores_created_calls, Hst.
Qed.

(** ** The first render *)

(** X10.  A successful load renders once, into the element [#app], with
    the store just created and the props [routes] and [client]; the routes
    are the exports of [./playerRoutes] in a player build, the only case
    in which the load calls [require], and the imported [baseRoute]
    otherwise. *)
Theorem first_render b win doc mods n c (w : world dom_tree) :
  client_js reconcile b (page win doc mods n) = (Some c, w) ->
  exists routes,
    initial_routes b mods = Some routes /\
    hydrations (trace w)
    = [(app_element (cl_store c)
          {[ "routes" := routes; "client" := cl_client c ]}, cl_dest c)] /\
    requires (trace w)
    = (if ToBoolean (PLAYER b) then ["./playerRoutes"] else []).
Proof.
  intros Hload.
  destruct (client_js_load _ _ _ _ _ _ _ _ Hload)
    as (d & routes & _ & Hr & -> & _ & _ & Ht).
  exists routes. split; [done|]. rewrite Ht.
  destruct (ToBoolean (ravenConfig b)), (ToBoolean (PLAYER b)),
    (subscribes b); done.
Qed.

(** ** Across updates *)

Lemma hot_update_subscribed_world c d exports (w : world dom_tree) :
  cl_dest c = VObject d ->
  hot_accepted w = [("./baseRoute", c)] ->
  hot_update reconcile "./baseRoute" exports w =
  (Some tt,
   put_container d
     (reconcile (rerendered c exports) (containers w !! d))
     (add_event (EvHydrate (rerendered c exports) (VObject d))
        (add_event (EvSetWindow "__isReactDndBackendSetUp" (VBool false))
           (put_window "__isReactDndBackendSetUp" (VBool false)
              (add_event (EvRequire "./baseRoute")
                 (put_module "./baseRoute" exports w)))))).
Proof.
  intros Hd Hacc. unfold hot_update. rewrite Hacc.
  cbn [run_callbacks]. change (String.eqb _ _) with true. cbv iota.
  unfold bind at 1.
  by rewrite (hot_callback_run reconcile c d exports)
    by (done || apply lookup_insert_eq).
Qed.

(** One update on a mounted page: it succeeds, and renders once if the
    script has subscribed and not at all otherwise. *)
Lemma hot_update_mounted b c exports (w : world dom_tree) :
  mounted b c w ->
  exists w',
    hot_update reconcile "./baseRoute" exports w = (Some tt, w') /\
    modules w' = <["./baseRoute" := exports]> (modules w) /\
    (forall k, k <> "__isReactDndBackendSetUp" ->
               window w' !! k = window w !! k) /\
    trace w' =
      trace w ++
      (if subscribes b
       then [ EvRequire "./baseRoute";
              EvSetWindow "__isReactDndBackendSetUp" (VBool false);
              EvHydrate (rerendered c exports) (cl_dest c) ]
       else []).
Proof.
  intros [[d Hd] Hacc _ _ _ _ _].
  destruct (subscribes b).
  - rewrite (hot_update_subscribed_world c d exports w Hd Hacc).
    eexists. split; [reflexivity|]. fields. rewrite Hd, <- !app_assoc.
    repeat split. intros k Hk. by rewrite lookup_insert_ne.
  - rewrite hot_update_unsubscribed by done.
    eexists. split; [reflexivity|]. fields. by rewrite app_nil_r.
Qed.

(** The mount element and the store across updates. *)
Lemma reachable_page b win doc mods n c (w : world dom_tree) :
  reachable reconcile b (page win doc mods n) c w ->
  (exists d, doc !! "app" = Some d /\ cl_dest c = VObject d) /\
  window w !! "wrAppContainer" = Some (cl_dest c) /\
  store_calls (trace w)
  = [(cl_client c, default VUndefined (win !! "__data"), cl_store c)] /\
  cl_client c <> cl_store c.
Proof.
  induction 1 as [c w Hload|c w exports w' Hreach IH Hup].
  - destruct (client_js_load _ _ _ _ _ _ _ _ Hload)
      as (d & routes & Hd & _ & Hc & _ & _ & _).
    destruct (client_js_outcome _ _ _ _ _ _ _ Hload)
      as (Hwin & _ & Hst & _).
    rewrite Hwin, Hst, Hd, Hc. cbn [from_option cl_dest cl_client cl_store].
    split; [by eauto|]. split; [apply lookup_insert_eq|].
    split; [done|]. intros [= Hn]. lia.
  - destruct IH as (Hd & Hwr & Hst & Hne).
    pose proof (reachable_mounted _ _ _ _ _ _ _ _ Hreach) as Hm.
    destruct (hot_update_mounted b c exports w Hm)
      as (w2 & Hup2 & _ & Hwin & Ht).
    rewrite Hup in Hup2. injection Hup2 as <-.
    split; [done|]. split; [by rewrite Hwin|]. split; [|done].
    rewrite Ht. unfold store_calls in *. rewrite omap_app, Hst.
    destruct (subscribes b); done.
Qed.

(** X11.  The element [#app] found at load is published as
    [window.wrAppContainer] and stays there across hot updates, and every
    render, first or hot, goes into that element. *)
Theorem mount_element_stable b win doc mods n c (w : world dom_tree) :
  reachable reconcile b (page win doc mods n) c w ->
  (exists d, doc !! "app" = Some d /\ cl_dest c = VObject d) /\
  window w !! "wrAppContainer" = Some (cl_dest c) /\
  Forall (fun h => h.2 = cl_dest c) (hydrations (trace w)).
Proof.
  intros Hreach.
  destruct (reachable_page _ _ _ _ _ _ _ Hreach) as (Hd & Hwr & _).
  destruct (reachable_mounted _ _ _ _ _ _ _ _ Hreach) as [_ _ _ _ _ _ Hr].
  repeat split; try done. eapply Forall_impl; [exact Hr|]. by intros h [_ ?].
Qed.

(** X12.  The assignments to properties of [window] that the script
    makes itself are one to [wrAppContainer], at load, and then one to
    [__isReactDndBackendSetUp] for each hot re-render, and no other. *)
Theorem window_assignments b win doc mods n c (w : world dom_tree) :
  reachable reconcile b (page win doc mods n) c w ->
  exists k,
    window_writes (trace w)
    = "wrAppContainer" :: replicate k "__isReactDndBackendSetUp" /\
    length (hydrations (trace w)) = S k.
Proof.
  induction 1 as [c w Hload|c w exports w' Hreach (k & Hw & Hh) Hup].
  - destruct (client_js_load _ _ _ _ _ _ _ _ Hload)
      as (d & routes & _ & _ & _ & _ & _ & Ht).
    exists 0%nat. rewrite Ht.
    destruct (ToBoolean (ravenConfig b)), (ToBoolean (PLAYER b)),
      (subscribes b); done.
  - pose proof (reachable_mounted _ _ _ _ _ _ _ _ Hreach) as Hm.
    destruct (hot_update_mounted b c exports w Hm)
      as (w2 & Hup2 & _ & _ & Ht).
    rewrite Hup in Hup2. injection Hup2 as <-.
    unfold window_writes, hydrations in *.
    rewrite Ht, !omap_app, Hw, length_app, Hh.
    destruct (subscribes b); cbn [omap length].
    + exists (S k). by rewrite replicate_S_end, app_comm_cons, Nat.add_1_r.
    + exists k. by rewrite app_nil_r, Nat.add_0_r.
Qed.

(** X13.  The store is built once, from the [ApiClient] that the renders
    receive as [client] and from [window.__data] as the page had it
    ([undefined] when the page has none); the client and the store are
    different objects. *)
Theorem store_seeded b win doc mods n c (w : world dom_tree) :
  reachable reconcile b (page win doc mods n) c w ->
  store_calls (trace w)
  = [(cl_client c, default VUndefined (win !! "__data"), cl_store c)] /\
  cl_client c <> cl_store c.
Proof.
  intros Hreach.
  by destruct (reachable_page _ _ _ _ _ _ _ Hreach) as (_ & _ & ? & ?).
Qed.

(** X14.  Across hot updates nothing is registered twice: the global
    handlers and the accepted callbacks are those of the load, with one
    [Raven] installation and one [module.hot.accept] call at most. *)
Theorem registrations_stable b win doc mods n c (w : world dom_tree) :
  reachable reconcile b (page win doc mods n) c w ->
  error_handlers w
  = (if ToBoolean (ravenConfig b) then [ravenConfig b] else []) /\
  raven_installs (trace w) = error_handlers w /\
  hot_accepted w = (if subscribes b then [("./baseRoute", c)] else []) /\
  hot_accepts (trace w) = fst <$> hot_accepted w.
Proof.
  intros Hreach.
  destruct (reachable_mounted _ _ _ _ _ _ _ _ Hreach) as [_ Ha Hh Hi Hs _ _].
  rewrite Hh, Hi, Ha, Hs. by destruct (subscribes b).
Qed.


(** X16.  In a player build with hot reload the first render shows the
    player routes, and the render after an update shows the exports of
    [./baseRoute]. *)
Theorem player_routes_replaced b win doc mods n c pr exports
    (w : world dom_tree) :
  client_js reconcile b (page win doc mods n) = (Some c, w) ->
  ToBoolean (PLAYER b) = true -> subscribes b = true ->
  mods !! "./playerRoutes" = Some pr ->
  exists w',
    hot_update reconcile "./baseRoute" exports w = (Some tt, w') /\
    (fun h => root_props h.1 ≫= (.!! "routes")) <$> hydrations (trace w')
    = [Some pr; Some exports].
Proof.
  intros Hload Hp Hsub Hpr.
  destruct (client_js_load _ _ _ _ _ _ _ _ Hload)
    as (d & routes & _ & Hr & Hc & _ & _ & Ht).
  unfold initial_routes in Hr. rewrite Hp, Hpr in Hr. injection Hr as <-.
  destruct (hot_update_mounted b c exports w (load_mounted _ _ _ _ _ _ _ _ Hload))
    as (w' & Hup & _ & _ & Ht').
  exists w'. split; [done|]. rewrite Ht', Ht, Hp, Hsub.
  destruct (ToBoolean (ravenConfig b)); cbn;
    by rewrite !(lookup_union_Some_l _ _ _ _ (lookup_insert_eq _ _ _)).
Qed.

(** ** Delivering an update twice *)

Hypothesis reconcile_idempotent : forall el t,
  reconcile el (Some (reconcile el t)) = reconcile el t.

(** X17.  With the subscription active, delivering the same update a
    second time changes neither the rendered output, nor [window], nor the
    module registry. *)
Theorem hot_update_twice b win doc mods n c exports (w w1 : world dom_tree) :
  reachable reconcile b (page win doc mods n) c w ->
  subscribes b = true ->
  hot_update reconcile "./baseRoute" exports w = (Some tt, w1) ->
  exists w2,
    hot_update reconcile "./baseRoute" exports w1 = (Some tt, w2) /\
    containers w2 = containers w1 /\ window w2 = window w1 /\
    modules w2 = modules w1.
Proof.
  intros Hreach Hsub Hup.
  destruct (reachable_mounted _ _ _ _ _ _ _ _ Hreach) as [[d Hd] Hacc _ _ _ _ _].
  rewrite Hsub in Hacc.
  rewrite (hot_update_subscribed_world c d exports w Hd Hacc) in Hup.
  injection Hup as <-.
  rewrite (hot_update_subscribed_world c d exports) by done.
  eexists. split; [reflexivity|]. fields.
  rewrite lookup_insert_eq, reconcile_idempotent.
  by rewrite !insert_insert_eq.
Qed.

End Runs.

(** ** On the example pages *)

Import Example.

Lemma loaded_player_run :
  client_js show player_build player_start
  = (Some {| cl_store := VObject 5; cl_dest := VObject 1;
             cl_client := VObject 3 |}, loaded_player).
Proof. vm_compute. reflexivity. Defined.

Lemma updated_run :
  hot_update show "./baseRoute" (VObject 7) loaded = (Some tt, updated).
Proof. vm_compute. reflexivity. Defined.

Lemma updated_reachable : reachable show dev_build start consts updated.
Proof.
  eapply reach_update; [exact loaded_reachable | exact updated_run].
Defined.

Lemma failed_load_effects_witness :
  hot_accepted failed = [] /\ hot_accepts (trace failed) = [] /\
  stores_created (trace failed) = [VObject 4] /\
  scripts_appended (trace failed) = [(VObject 3, bundle_url, true)].
Proof.
  exact (failed_load_effects show dev_build ∅ ∅ mods 2 failed eq_refl).
Defined.

Lemma first_render_witness :
  exists routes,
    initial_routes player_build player_mods = Some routes /\
    hydrations (trace loaded_player)
    = [(app_element (VObject 5)
          {[ "routes" := routes; "client" := VObject 3 ]}, VObject 1)] /\
    requires (trace loaded_player) = ["./playerRoutes"].
Proof.
  exact (first_render show player_build ∅ doc player_mods 3 _ loaded_player
           loaded_player_run).
Defined.

Lemma mount_element_stable_witness :
  (exists d, doc !! "app" = Some d /\ cl_dest consts = VObject d) /\
  window loaded !! "wrAppContainer" = Some (cl_dest consts) /\
  Forall (fun h => h.2 = cl_dest consts) (hydrations (trace loaded)).
Proof.
  exact (mount_element_stable show dev_build ∅ doc mods 2 consts loaded
           loaded_reachable).
Defined.

Lemma window_assignments_witness :
  exists k,
    window_writes (trace updated)
    = "wrAppContainer" :: replicate k "__isReactDndBackendSetUp" /\
    length (hydrations (trace updated)) = S k.
Proof.
  exact (window_assignments show dev_build ∅ doc mods 2 consts updated
           updated_reachable).
Defined.

Lemma store_seeded_witness :
  store_calls (trace loaded) = [(VObject 2, VUndefined, VObject 4)] /\
  cl_client consts <> cl_store consts.
Proof.
  exact (store_seeded show dev_build ∅ doc mods 2 consts loaded
           loaded_reachable).
Defined.

Lemma registrations_stable_witness :
  error_handlers loaded = [] /\
  raven_installs (trace loaded) = error_handlers loaded /\
  hot_accepted loaded = [("./baseRoute", consts)] /\
  hot_accepts (trace loaded) = fst <$> hot_accepted loaded.
Proof.
  exact (registrations_stable show dev_build ∅ doc mods 2 consts loaded
           loaded_reachable).
Defined.


Lemma player_routes_replaced_witness :
  exists w',
    hot_update show "./baseRoute" (VObject 7) loaded_player = (Some tt, w') /\
    (fun h => root_props h.1 ≫= (.!! "routes")) <$> hydrations (trace w')
    = [Some (VObject 2); Some (VObject 7)].
Proof.
  assert (ToBoolean (PLAYER player_build) = true) as Hp
    by (vm_compute; reflexivity).
  assert (subscribes player_build = true) as Hsub
    by (vm_compute; reflexivity).
  assert (player_mods !! "./playerRoutes" = Some (VObject 2)) as Hpr
    by (vm_compute; reflexivity).
  pose proof (player_routes_replaced show player_build ∅ doc player_mods 3 _
                (VObject 2) (VObject 7) loaded_player loaded_player_run)
    as Hplayer.
  exact (Hplayer Hp Hsub Hpr).
Defined.

Lemma hot_update_twice_witness :
  exists w2,
    hot_update show "./baseRoute" (VObject 7) updated = (Some tt, w2) /\
    containers w2 = containers updated /\
    window w2 = window updated /\
    modules w2 = modules updated.
Proof.
  exact (hot_update_twice show (fun _ _ => eq_refl) dev_build ∅ doc mods 2
           consts (VObject 7) loaded updated loaded_reachable eq_refl
           updated_run).
Defined.

End ClientRuns.
